(** * vtkPlotBag: a shallow embedding of Charts/Core/vtkPlotBag.cxx

    The bag plot keeps two cached polygons (the median bag and the q3 bag),
    rebuilt by [UpdateCache] from the density column of the input table, and
    paints them under the scatter points of its superclass.

    Conventions of the embedding:
    - a C++ [double] (or [float]) is a value of an abstract type [D] with the
      operations the file uses (class [Double]); the order laws that the
      proofs need are collected in [DoubleOrder] and hold for exact
      arithmetic as well as for IEEE numbers without NaN;
    - an [unsigned char] is a [Z]; an [int] passed where an [unsigned char]
      is expected goes through [to_uchar];
    - a nullable pointer is an [option];
    - an operation whose C++ behaviour is undefined (a null dereference, a
      read or write past the end of an array) makes the enclosing function
      return [None];
    - [vtkDebugMacro] traces are left out: they write to the debug output
      only and change nothing; a [vtkErrorMacro] message is returned beside
      the new state;
    - collaborators that live outside the file (std::sort, the convex hull
      builder, the superclass, the number formatters) are interfaces, given
      as type classes. *)

From stdpp Require Import base option list strings sorting.
From Stdlib Require Import Ascii QArith Qround Lqa DecimalString.
Close Scope Q_scope.

(** ** The arithmetic of [double] *)

Class Double (D : Type) := {
  d_lit : Z → D;              (* an integer literal: 0.0, 0., 1.f, 2, 5.f *)
  d_half : D;                 (* 0.5 *)
  d_q99 : D;                  (* 0.99 *)
  d_add : D → D → D;
  d_mul : D → D → D;
  d_div : D → D → D;
  d_ltb : D → D → bool        (* operator< *)
}.

Definition d_zero `{Double D} : D := d_lit 0.

(** [d_le a b] reads "b is not less than a". *)
Definition d_le `{Double D} (a b : D) : Prop := d_ltb b a = false.

(** The order laws used below. None of them asks addition to be associative
    or commutative, so they are also laws of rounded arithmetic. *)
Class DoubleOrder (D : Type) `{Double D} : Prop := {
  d_ltb_asym : ∀ a b, d_ltb a b = true → d_ltb b a = false;
  d_le_trans : ∀ a b c, d_le a b → d_le b c → d_le a c;
  d_add_nonneg : ∀ s d, d_le d_zero d → d_le s (d_add s d);
  d_scale_mono : ∀ s, d_le d_zero s → d_le (d_mul d_half s) (d_mul d_q99 s)
}.

(** ** Tables, points, pens and brushes *)

Section PlotBag.
Context {D Axis : Type} `{Double D}.

(** A column is a named array; only a [vtkDataArray] holds numbers, and
    [vtkDataArray::SafeDownCast] / [vtkArrayDownCast<vtkDataArray>] fail on
    any other array. *)
Inductive vtkAbstractArray :=
| vtkDataArray (name : string) (tuples : list D)
| vtkStringArray (name : string) (values : list string).

Definition GetName (a : vtkAbstractArray) : string :=
  match a with vtkDataArray n _ | vtkStringArray n _ => n end.

Definition GetNumberOfTuples (a : vtkAbstractArray) : nat :=
  match a with
  | vtkDataArray _ t => length t
  | vtkStringArray _ v => length v
  end.

Definition SafeDownCast (a : option vtkAbstractArray) : option (list D) :=
  match a with
  | Some (vtkDataArray _ t) => Some t
  | _ => None
  end.

(** A table is the list of its columns, in column order. *)
Definition vtkTable := list vtkAbstractArray.

Definition GetColumn (table : vtkTable) (i : nat) : option vtkAbstractArray :=
  (table : list vtkAbstractArray) !! i.

Definition GetColumnByName (table : vtkTable) (name : string) : option vtkAbstractArray :=
  List.find (λ c, bool_decide (GetName c = name)) table.

(** [vtkTable::GetColumnName] answers a null pointer for a column that does
    not exist. *)
Definition GetColumnName (table : vtkTable) (i : Z) : option string :=
  if decide (0 ≤ i)%Z then GetName <$> (table : list vtkAbstractArray) !! Z.to_nat i
  else None.

Definition Point2D : Type := D * D.
Definition Point3D : Type := D * D * D.
Definition vtkPoints2D := list Point2D.

(** [vtkBrush]: the four bytes of its colour. *)
Record vtkBrush := mkBrush { Red : Z; Green : Z; Blue : Z; Opacity : Z }.

(** The conversion of an [int] argument to [unsigned char]. *)
Definition to_uchar (z : Z) : Z := z mod 256.

(** [GetColor(unsigned char color[4])] *)
Definition Brush_GetColor (b : vtkBrush) : Z * Z * Z * Z :=
  (Red b, Green b, Blue b, Opacity b).

(** [SetColor(unsigned char r, unsigned char g, unsigned char b)] *)
Definition Brush_SetColor (r g b : Z) (br : vtkBrush) : vtkBrush :=
  {| Red := r; Green := g; Blue := b; Opacity := Opacity br |}.

(** [SetColor(unsigned char color[3])] reads three bytes of the array. *)
Definition Brush_SetColorv (color : Z * Z * Z * Z) (br : vtkBrush) : vtkBrush :=
  let '(r, g, b, _) := color in
  {| Red := r; Green := g; Blue := b; Opacity := Opacity br |}.

(** [SetOpacity(unsigned char a)] *)
Definition Brush_SetOpacity (a : Z) (br : vtkBrush) : vtkBrush :=
  {| Red := Red br; Green := Green br; Blue := Blue br; Opacity := a |}.

Record vtkPen := mkPen { PenColor : Z * Z * Z; Width : D }.

(** [vtkContext2D]: the painter, as the list of the calls it received. *)
Inductive PaintCall :=
| ApplyPen (pen : vtkPen)
| ApplyBrush (brush : vtkBrush)
| DrawPolygon (points : vtkPoints2D)
| DrawLine (points : vtkPoints2D)
| DrawPoints (points : vtkPoints2D)
| DrawRect (x y w h : D).

Definition vtkContext2D := list PaintCall.

(** ** The plot object *)

Record vtkPlotBag := mkPlotBag {
  Input : option vtkTable;   (* this->Data->GetInput() *)
  InputArrayX : option string;   (* input array 0 of this->Data *)
  InputArrayY : option string;   (* input array 1 *)
  InputArrayDensity : option string;   (* input array 2 *)
  Points : option vtkPoints2D;   (* the scatter points of the superclass *)
  MedianPoints : vtkPoints2D;
  Q3Points : vtkPoints2D;
  Visible : bool;
  BagVisible : bool;
  UseIndexForXSeries : bool;
  Brush : vtkBrush;
  Pen : vtkPen;
  LinePen : vtkPen;
  Labels : option (list string);
  AutoLabels : option (list string);
  IndexedLabels : option (list string);
  TooltipLabelFormat : string;
  TooltipDefaultLabelFormat : string;
  XAxis : option Axis;
  YAxis : option Axis;
  BuildTime : nat;
  MTime : nat
}.

Definition set_Input (v : option vtkTable) (this : vtkPlotBag) : vtkPlotBag :=
  {| Input := v; InputArrayX := InputArrayX this; InputArrayY := InputArrayY this;
     InputArrayDensity := InputArrayDensity this; Points := Points this;
     MedianPoints := MedianPoints this; Q3Points := Q3Points this;
     Visible := Visible this; BagVisible := BagVisible this;
     UseIndexForXSeries := UseIndexForXSeries this; Brush := Brush this;
     Pen := Pen this; LinePen := LinePen this; Labels := Labels this;
     AutoLabels := AutoLabels this; IndexedLabels := IndexedLabels this;
     TooltipLabelFormat := TooltipLabelFormat this;
     TooltipDefaultLabelFormat := TooltipDefaultLabelFormat this;
     XAxis := XAxis this; YAxis := YAxis this; BuildTime := BuildTime this;
     MTime := MTime this |}.

Definition set_InputArrayX (v : option string) (this : vtkPlotBag) : vtkPlotBag :=
  {| Input := Input this; InputArrayX := v; InputArrayY := InputArrayY this;
     InputArrayDensity := InputArrayDensity this; Points := Points this;
     MedianPoints := MedianPoints this; Q3Points := Q3Points this;
     Visible := Visible this; BagVisible := BagVisible this;
     UseIndexForXSeries := UseIndexForXSeries this; Brush := Brush this;
     Pen := Pen this; LinePen := LinePen this; Labels := Labels this;
     AutoLabels := AutoLabels this; IndexedLabels := IndexedLabels this;
     TooltipLabelFormat := TooltipLabelFormat this;
     TooltipDefaultLabelFormat := TooltipDefaultLabelFormat this;
     XAxis := XAxis this; YAxis := YAxis this; BuildTime := BuildTime this;
     MTime := MTime this |}.

Definition set_InputArrayY (v : option string) (this : vtkPlotBag) : vtkPlotBag :=
  {| Input := Input this; InputArrayX := InputArrayX this; InputArrayY := v;
     InputArrayDensity := InputArrayDensity this; Points := Points this;
     MedianPoints := MedianPoints this; Q3Points := Q3Points this;
     Visible := Visible this; BagVisible := BagVisible this;
     UseIndexForXSeries := UseIndexForXSeries this; Brush := Brush this;
     Pen := Pen this; LinePen := LinePen this; Labels := Labels this;
     AutoLabels := AutoLabels this; IndexedLabels := IndexedLabels this;
     TooltipLabelFormat := TooltipLabelFormat this;
     TooltipDefaultLabelFormat := TooltipDefaultLabelFormat this;
     XAxis := XAxis this; YAxis := YAxis this; BuildTime := BuildTime this;
     MTime := MTime this |}.

Definition set_InputArrayDensity (v : option string) (this : vtkPlotBag) : vtkPlotBag :=
  {| Input := Input this; InputArrayX := InputArrayX this;
     InputArrayY := InputArrayY this; InputArrayDensity := v; Points := Points this;
     MedianPoints := MedianPoints this; Q3Points := Q3Points this;
     Visible := Visible this; BagVisible := BagVisible this;
     UseIndexForXSeries := UseIndexForXSeries this; Brush := Brush this;
     Pen := Pen this; LinePen := LinePen this; Labels := Labels this;
     AutoLabels := AutoLabels this; IndexedLabels := IndexedLabels this;
     TooltipLabelFormat := TooltipLabelFormat this;
     TooltipDefaultLabelFormat := TooltipDefaultLabelFormat this;
     XAxis := XAxis this; YAxis := YAxis this; BuildTime := BuildTime this;
     MTime := MTime this |}.

Definition set_Points (v : option vtkPoints2D) (this : vtkPlotBag) : vtkPlotBag :=
  {| Input := Input this; InputArrayX := InputArrayX this;
     InputArrayY := InputArrayY this; InputArrayDensity := InputArrayDensity this;
     Points := v; MedianPoints := MedianPoints this; Q3Points := Q3Points this;
     Visible := Visible this; BagVisible := BagVisible this;
     UseIndexForXSeries := UseIndexForXSeries this; Brush := Brush this;
     Pen := Pen this; LinePen := LinePen this; Labels := Labels this;
     AutoLabels := AutoLabels this; IndexedLabels := IndexedLabels this;
     TooltipLabelFormat := TooltipLabelFormat this;
     TooltipDefaultLabelFormat := TooltipDefaultLabelFormat this;
     XAxis := XAxis this; YAxis := YAxis this; BuildTime := BuildTime this;
     MTime := MTime this |}.

Definition set_MedianPoints (v : vtkPoints2D) (this : vtkPlotBag) : vtkPlotBag :=
  {| Input := Input this; InputArrayX := InputArrayX this;
     InputArrayY := InputArrayY this; InputArrayDensity := InputArrayDensity this;
     Points := Points this; MedianPoints := v; Q3Points := Q3Points this;
     Visible := Visible this; BagVisible := BagVisible this;
     UseIndexForXSeries := UseIndexForXSeries this; Brush := Brush this;
     Pen := Pen this; LinePen := LinePen this; Labels := Labels this;
     AutoLabels := AutoLabels this; IndexedLabels := IndexedLabels this;
     TooltipLabelFormat := TooltipLabelFormat this;
     TooltipDefaultLabelFormat := TooltipDefaultLabelFormat this;
     XAxis := XAxis this; YAxis := YAxis this; BuildTime := BuildTime this;
     MTime := MTime this |}.

Definition set_Q3Points (v : vtkPoints2D) (this : vtkPlotBag) : vtkPlotBag :=
  {| Input := Input this; InputArrayX := InputArrayX this;
     InputArrayY := InputArrayY this; InputArrayDensity := InputArrayDensity this;
     Points := Points this; MedianPoints := MedianPoints this; Q3Points := v;
     Visible := Visible this; BagVisible := BagVisible this;
     UseIndexForXSeries := UseIndexForXSeries this; Brush := Brush this;
     Pen := Pen this; LinePen := LinePen this; Labels := Labels this;
     AutoLabels := AutoLabels this; IndexedLabels := IndexedLabels this;
     TooltipLabelFormat := TooltipLabelFormat this;
     TooltipDefaultLabelFormat := TooltipDefaultLabelFormat this;
     XAxis := XAxis this; YAxis := YAxis this; BuildTime := BuildTime this;
     MTime := MTime this |}.

Definition set_UseIndexForXSeries (v : bool) (this : vtkPlotBag) : vtkPlotBag :=
  {| Input := Input this; InputArrayX := InputArrayX this;
     InputArrayY := InputArrayY this; InputArrayDensity := InputArrayDensity this;
     Points := Points this; MedianPoints := MedianPoints this;
     Q3Points := Q3Points this; Visible := Visible this;
     BagVisible := BagVisible this; UseIndexForXSeries := v; Brush := Brush this;
     Pen := Pen this; LinePen := LinePen this; Labels := Labels this;
     AutoLabels := AutoLabels this; IndexedLabels := IndexedLabels this;
     TooltipLabelFormat := TooltipLabelFormat this;
     TooltipDefaultLabelFormat := TooltipDefaultLabelFormat this;
     XAxis := XAxis this; YAxis := YAxis this; BuildTime := BuildTime this;
     MTime := MTime this |}.

Definition set_Brush (v : vtkBrush) (this : vtkPlotBag) : vtkPlotBag :=
  {| Input := Input this; InputArrayX := InputArrayX this;
     InputArrayY := InputArrayY this; InputArrayDensity := InputArrayDensity this;
     Points := Points this; MedianPoints := MedianPoints this;
     Q3Points := Q3Points this; Visible := Visible this;
     BagVisible := BagVisible this; UseIndexForXSeries := UseIndexForXSeries this;
     Brush := v; Pen := Pen this; LinePen := LinePen this; Labels := Labels this;
     AutoLabels := AutoLabels this; IndexedLabels := IndexedLabels this;
     TooltipLabelFormat := TooltipLabelFormat this;
     TooltipDefaultLabelFormat := TooltipDefaultLabelFormat this;
     XAxis := XAxis this; YAxis := YAxis this; BuildTime := BuildTime this;
     MTime := MTime this |}.

Definition set_AutoLabels (v : option (list string)) (this : vtkPlotBag) : vtkPlotBag :=
  {| Input := Input this; InputArrayX := InputArrayX this;
     InputArrayY := InputArrayY this; InputArrayDensity := InputArrayDensity this;
     Points := Points this; MedianPoints := MedianPoints this;
     Q3Points := Q3Points this; Visible := Visible this;
     BagVisible := BagVisible this; UseIndexForXSeries := UseIndexForXSeries this;
     Brush := Brush this; Pen := Pen this; LinePen := LinePen this;
     Labels := Labels this; AutoLabels := v; IndexedLabels := IndexedLabels this;
     TooltipLabelFormat := TooltipLabelFormat this;
     TooltipDefaultLabelFormat := TooltipDefaultLabelFormat this;
     XAxis := XAxis this; YAxis := YAxis this; BuildTime := BuildTime this;
     MTime := MTime this |}.

Definition set_BuildTime (v : nat) (this : vtkPlotBag) : vtkPlotBag :=
  {| Input := Input this; InputArrayX := InputArrayX this;
     InputArrayY := InputArrayY this; InputArrayDensity := InputArrayDensity this;
     Points := Points this; MedianPoints := MedianPoints this;
     Q3Points := Q3Points this; Visible := Visible this;
     BagVisible := BagVisible this; UseIndexForXSeries := UseIndexForXSeries this;
     Brush := Brush this; Pen := Pen this; LinePen := LinePen this;
     Labels := Labels this; AutoLabels := AutoLabels this;
     IndexedLabels := IndexedLabels this;
     TooltipLabelFormat := TooltipLabelFormat this;
     TooltipDefaultLabelFormat := TooltipDefaultLabelFormat this;
     XAxis := XAxis this; YAxis := YAxis this; BuildTime := v; MTime := MTime this |}.

Definition set_MTime (v : nat) (this : vtkPlotBag) : vtkPlotBag :=
  {| Input := Input this; InputArrayX := InputArrayX this;
     InputArrayY := InputArrayY this; InputArrayDensity := InputArrayDensity this;
     Points := Points this; MedianPoints := MedianPoints this;
     Q3Points := Q3Points this; Visible := Visible this;
     BagVisible := BagVisible this; UseIndexForXSeries := UseIndexForXSeries this;
     Brush := Brush this; Pen := Pen this; LinePen := LinePen this;
     Labels := Labels this; AutoLabels := AutoLabels this;
     IndexedLabels := IndexedLabels this;
     TooltipLabelFormat := TooltipLabelFormat this;
     TooltipDefaultLabelFormat := TooltipDefaultLabelFormat this;
     XAxis := XAxis this; YAxis := YAxis this; BuildTime := BuildTime this;
     MTime := v |}.

(** [SetBagVisible] (a [vtkSetMacro] of the class). *)
Definition set_BagVisible (v : bool) (this : vtkPlotBag) : vtkPlotBag :=
  {| Input := Input this; InputArrayX := InputArrayX this;
     InputArrayY := InputArrayY this; InputArrayDensity := InputArrayDensity this;
     Points := Points this; MedianPoints := MedianPoints this;
     Q3Points := Q3Points this; Visible := Visible this;
     BagVisible := v; UseIndexForXSeries := UseIndexForXSeries this;
     Brush := Brush this; Pen := Pen this; LinePen := LinePen this;
     Labels := Labels this; AutoLabels := AutoLabels this;
     IndexedLabels := IndexedLabels this;
     TooltipLabelFormat := TooltipLabelFormat this;
     TooltipDefaultLabelFormat := TooltipDefaultLabelFormat this;
     XAxis := XAxis this; YAxis := YAxis this; BuildTime := BuildTime this;
     MTime := MTime this |}.

(** The plot with another tooltip format in [TooltipLabelFormat]. *)
Definition set_TooltipLabelFormat (v : string) (this : vtkPlotBag) : vtkPlotBag :=
  {| Input := Input this; InputArrayX := InputArrayX this;
     InputArrayY := InputArrayY this; InputArrayDensity := InputArrayDensity this;
     Points := Points this; MedianPoints := MedianPoints this;
     Q3Points := Q3Points this; Visible := Visible this;
     BagVisible := BagVisible this; UseIndexForXSeries := UseIndexForXSeries this;
     Brush := Brush this; Pen := Pen this; LinePen := LinePen this;
     Labels := Labels this; AutoLabels := AutoLabels this;
     IndexedLabels := IndexedLabels this;
     TooltipLabelFormat := v;
     TooltipDefaultLabelFormat := TooltipDefaultLabelFormat this;
     XAxis := XAxis this; YAxis := YAxis this; BuildTime := BuildTime this;
     MTime := MTime this |}.

(** ** The density ranking *)

Record DensityVal := mkDensityVal { Density : D; Id : nat }.

(** [DensityVal::operator<]: the larger density sorts first. *)
Definition DensityVal_lt (a b : DensityVal) : bool := d_ltb (Density b) (Density a).

(** The loop that fills [ids]: one entry per tuple, numbered by [counter]
    (an [int] in the source; row counts beyond its range are not modelled). *)
Fixpoint emplace_all (range : list D) (counter : nat) : list DensityVal :=
  match range with
  | [] => []
  | tuple :: rest => mkDensityVal tuple counter :: emplace_all rest (S counter)
  end.

(** [std::sort(ids.begin(), ids.end())], an interface: the standard only
    promises a rearrangement in which no later element is less than an
    earlier one. *)
Class StdSort := std_sort : list DensityVal → list DensityVal.

Definition StdSortContract (sort : StdSort) : Prop :=
  ∀ l, l ≡ₚ sort l ∧ StronglySorted (λ a b, DensityVal_lt b a = false) (sort l).

(** [densitySum]: the densities added up in row order. *)
Definition density_sum (density : list D) : D := foldl d_add d_zero density.

(** [vtkPoints2D::GetPoint(id, x)]; a read past the end is undefined. *)
Definition GetPoint (points : vtkPoints2D) (id : nat) : option Point2D :=
  (points : list Point2D) !! id.

(** [InsertNextPoint] of the hull builder appends. *)
Definition InsertNextPoint (pts : list Point3D) (p : Point3D) : list Point3D := pts ++ [p].

(** The accumulation loop of [UpdateCache], from [i] on: [ids] is what is
    left of the sorted vector, [sum] the mass so far, [medianPoints] and
    [q3Points] the two hull builders. Leaving the [match] in its last branch
    is the [break]. *)
Fixpoint accumulate (points : vtkPoints2D) (medianDensity q3Density : D)
    (ids : list DensityVal) (sum : D) (medianPoints q3Points : list Point3D)
    : option (list Point3D * list Point3D) :=
  match ids with
  | [] => Some (medianPoints, q3Points)
  | id :: rest =>
      x ← GetPoint points (Id id);
      let point3d : Point3D := (fst x, snd x, d_zero) in
      let sum := d_add sum (Density id) in
      let medianPoints :=
        if d_ltb sum medianDensity then InsertNextPoint medianPoints point3d
        else medianPoints in
      if d_ltb sum q3Density
      then accumulate points medianDensity q3Density rest sum medianPoints
             (InsertNextPoint q3Points point3d)
      else Some (medianPoints, q3Points)
  end.

(** Lines 117-164 of [UpdateCache]: rank the rows, total the density, and
    feed the two hull builders. The result is the pair (medianPoints,
    q3Points). *)
Definition CollectBags {sort : StdSort} (points : vtkPoints2D) (density : list D)
    : option (list Point3D * list Point3D) :=
  let ids := std_sort (emplace_all density 0) in
  let densitySum := density_sum density in
  let medianDensity := d_mul d_half densitySum in
  let q3Density := d_mul d_q99 densitySum in
  accumulate points medianDensity q3Density ids d_zero [] [].

(** ** Storing a bag *)

(** Modelled from the spec: the convex-hull utility [vtkPointsProjectedHull]
    (ordered point insertion, hull extraction, size query), whose code is not
    in this file. [CCWHullZ pts] stands for the counter-clockwise hull of the
    inserted points seen along z; [GetSizeCCWHullZ] is its size query and
    [GetCCWHullZ] its extraction into a caller's buffer of [len] points. *)
Class vtkPointsProjectedHull := CCWHullZ : list Point3D → list Point2D.

Definition GetSizeCCWHullZ {hull : vtkPointsProjectedHull} (pts : list Point3D) : nat :=
  length (CCWHullZ pts).

Definition GetCCWHullZ {hull : vtkPointsProjectedHull} (pts : list Point3D)
    (buffer : vtkPoints2D) (len : nat) : vtkPoints2D :=
  let hull := take len (CCWHullZ pts) in
  hull ++ drop (length hull) buffer.

(** What a freshly sized point array holds before it is written. *)
Class RawMemory := raw_point : Point2D.

Definition Reset (pts : vtkPoints2D) : vtkPoints2D := [].

Definition SetNumberOfPoints {raw : RawMemory} (n : nat) (pts : vtkPoints2D) : vtkPoints2D :=
  take n pts ++ replicate (n - length pts) raw_point.

(** [SetPoint(i, x)]; a write past the end is undefined. *)
Definition SetPoint (pts : vtkPoints2D) (i : nat) (x : Point2D) : option vtkPoints2D :=
  if decide (i < length pts) then Some (<[i:=x]> (pts : list Point2D)) else None.

(** [vtkPoints2D::SetPoint(j, x)] reads two coordinates of [double x[3]]. *)
Definition xy (x : Point3D) : Point2D := (fst (fst x), snd (fst x)).

(** The copy loop of the one-or-two-points branch, for the indices [js]:
    [GetPoint(j, x)] on the hull builder, then [SetPoint(j, x)] on the cache. *)
Fixpoint copy_points (source : list Point3D) (js : list nat) (target : vtkPoints2D)
    : option vtkPoints2D :=
  match js with
  | [] => Some target
  | j :: js =>
      x ← source !! j;
      target ← SetPoint target j (xy x);
      copy_points source js target
  end.

(** Lines 166-188 (and again 190-211): turn the points of one hull builder
    into the cached polygon [target]. *)
Definition StoreBag {hull : vtkPointsProjectedHull} {raw : RawMemory}
    (hullPoints : list Point3D) (target : vtkPoints2D) : option vtkPoints2D :=
  let nbPoints := length hullPoints in
  if decide (2 < nbPoints) then
    let size := GetSizeCCWHullZ hullPoints in
    let target := SetNumberOfPoints (size + 1) target in
    let target := GetCCWHullZ hullPoints target size in
    x ← GetPoint target 0;
    SetPoint target size x
  else if decide (0 < nbPoints) then
    let target := SetNumberOfPoints nbPoints target in
    copy_points hullPoints (seq 0 nbPoints) target
  else Some target.

(** ** The cache rebuild *)

(** The superclass [vtkPlotPoints], an interface: its cache rebuild, which
    fills [Points], and its renderer, which reads the plot and draws the
    points on the painter. *)
Class vtkPlotPoints := {
  Superclass_UpdateCache : vtkPlotBag → bool * vtkPlotBag;
  Superclass_Paint : vtkPlotBag → vtkContext2D → bool * vtkContext2D
}.

(** [vtkPlotBag::UpdateCache]. *)
Definition UpdateCache {sort : StdSort} {hull : vtkPointsProjectedHull}
    {raw : RawMemory} {super : vtkPlotPoints}
    (this : vtkPlotBag) : option (bool * vtkPlotBag) :=
  let (ok, this) := Superclass_UpdateCache this in
  if negb ok then Some (false, this) else
  let table := Input this in
  let this := set_MedianPoints (Reset (MedianPoints this)) this in
  let this := set_Q3Points (Reset (Q3Points this)) this in
  match Points this with
  | None => Some (false, this)
  | Some points =>
      table ← table;
      match SafeDownCast (GetColumn table 2) with
      | None => Some (false, this)
      | Some density =>
          bags ← CollectBags points density;
          median ← StoreBag (fst bags) (MedianPoints this);
          let this := set_MedianPoints median this in
          q3 ← StoreBag (snd bags) (Q3Points this);
          let this := set_Q3Points q3 this in
          Some (true, set_BuildTime (S (BuildTime this)) this)
      end
  end.

(** ** Painting *)

Definition is_null {A} (p : option A) : bool :=
  match p with None => true | Some _ => false end.

(** The polygon-or-line rule shared by the two bags. *)
Definition draw_bag (bag : vtkPoints2D) (painter : vtkContext2D) : vtkContext2D :=
  if decide (2 < length bag) then painter ++ [DrawPolygon bag]
  else if decide (length bag = 2) then painter ++ [DrawLine bag]
  else painter.

(** [vtkPlotBag::Paint]: the answer, the plot afterwards and the painter
    afterwards. *)
Definition Paint {super : vtkPlotPoints} (this : vtkPlotBag) (painter : vtkContext2D)
    : bool * vtkPlotBag * vtkContext2D :=
  let table := Input this in
  if negb (Visible this) || is_null (Points this) || is_null table
  then (false, this, painter)
  else
    let '(this, painter) :=
      if BagVisible this then
        let bcolor := Brush_GetColor (Brush this) in
        let '(r, g, b, _) := bcolor in
        (* Draw the 2 bags *)
        let this := set_Brush (Brush_SetOpacity (to_uchar 255) (Brush this)) this in
        let this :=
          set_Brush (Brush_SetColor (to_uchar (r ÷ 2)) (to_uchar (g ÷ 2))
                       (to_uchar (b ÷ 2)) (Brush this)) this in
        let painter := painter ++ [ApplyPen (LinePen this)] in
        let painter := painter ++ [ApplyBrush (Brush this)] in
        let painter := draw_bag (Q3Points this) painter in
        let this := set_Brush (Brush_SetColorv bcolor (Brush this)) this in
        let this := set_Brush (Brush_SetOpacity (to_uchar 128) (Brush this)) this in
        let painter := painter ++ [ApplyBrush (Brush this)] in
        let painter := draw_bag (MedianPoints this) painter in
        (this, painter)
      else (this, painter) in
    let painter := painter ++ [ApplyPen (Pen this)] in
    (* Let PlotPoints draw the points as usual *)
    let (answer, painter) := Superclass_Paint this painter in
    (answer, this, painter).

(** [vtkRectf], by its four entries. *)
Record vtkRectf := mkRectf { rect0 : D; rect1 : D; rect2 : D; rect3 : D }.

(** [vtkPlotBag::PaintLegend]. *)
Definition PaintLegend (this : vtkPlotBag) (painter : vtkContext2D) (rect : vtkRectf)
    : bool * vtkPlotBag * vtkContext2D :=
  let painter := painter ++ [ApplyPen (LinePen this)] in
  let bcolor := Brush_GetColor (Brush this) in
  let '(r, g, b, _) := bcolor in
  let opacity := Opacity (Brush this) in
  let this := set_Brush (Brush_SetOpacity (to_uchar 255) (Brush this)) this in
  let this :=
    set_Brush (Brush_SetColor (to_uchar (r ÷ 2)) (to_uchar (g ÷ 2))
                 (to_uchar (b ÷ 2)) (Brush this)) this in
  let painter := painter ++ [ApplyBrush (Brush this)] in
  let painter := painter ++ [DrawRect (rect0 rect) (rect1 rect) (rect2 rect) (rect3 rect)] in
  let this := set_Brush (Brush_SetColorv bcolor (Brush this)) this in
  let this := set_Brush (Brush_SetOpacity (to_uchar 128) (Brush this)) this in
  let painter := painter ++ [ApplyBrush (Brush this)] in
  let painter := painter ++
    [DrawRect (d_add (rect0 rect) (d_div (rect2 rect) (d_lit 2))) (rect1 rect)
       (d_div (rect2 rect) (d_lit 2)) (rect3 rect)] in
  let this := set_Brush (Brush_SetOpacity opacity (Brush this)) this in
  (true, this, painter).

(** ** Labels and tooltips *)

(** Modelled from the spec: [GetInputAbstractArrayToProcess(idx, table)] of
    the mapper [this->Data], whose code is not in this file: the named-column
    lookup of the column that the configuration bound to input array [idx]. *)
Definition GetInputAbstractArrayToProcess (this : vtkPlotBag) (idx : nat)
    (table : option vtkTable) : option vtkAbstractArray :=
  table ← table;
  name ← match idx with
         | 0 => InputArrayX this
         | 1 => InputArrayY this
         | 2 => InputArrayDensity this
         | _ => None
         end;
  GetColumnByName table name.

(** [vtkPlotBag::GetLabels]: the labels, and the plot afterwards. *)
Definition GetLabels (this : vtkPlotBag) : option (list string) * vtkPlotBag :=
  match Labels this with
  | Some labels => (Some labels, this)
  | None =>
      match AutoLabels this with
      | Some labels => (Some labels, this)
      | None =>
          if is_null (Input this) then (None, this) else
          let density := GetInputAbstractArrayToProcess this 2 (Input this) in
          let labels :=
            match density, SafeDownCast density with
            | Some a, Some _ => [GetName a]
            | _, _ => []
            end in
          (Some labels, set_AutoLabels (Some labels) this)
      end
  end.

(** What the tooltip needs from outside the file: the plot's number
    formatter [vtkPlot::GetNumber], the conversion [vtkVariant::ToString] of a
    number, and [vtkPlot::GetLabel]. *)
Class PlotText := {
  GetNumber : D → option Axis → string;
  ToString : D → string;
  GetLabel : vtkPlotBag → string
}.

(** [GetVariantValue(idx).ToString()]; a read outside the array is undefined. *)
Definition GetVariantValue_ToString {text : PlotText} (a : vtkAbstractArray) (idx : Z)
    : option string :=
  if decide (0 ≤ idx)%Z then
    match a with
    | vtkDataArray _ tuples => ToString <$> tuples !! Z.to_nat idx
    | vtkStringArray _ values => values !! Z.to_nat idx
    end
  else None.

(** [ss << seriesIndex] *)
Definition decimal (z : Z) : string := NilZero.string_of_int (Z.to_int z).

(** What one escape code appends to the label. *)
Definition tooltip_code {text : PlotText} (this : vtkPlotBag) (plotPos : D * D)
    (seriesIndex : Z) (density : option vtkAbstractArray) (c : ascii) : option string :=
  match c with
  | "x"%char => Some (GetNumber (fst plotPos) (XAxis this))
  | "y"%char => Some (GetNumber (snd plotPos) (YAxis this))
  | "z"%char =>
      match density with
      | Some a => GetVariantValue_ToString a seriesIndex
      | None => Some "?"
      end
  | "i"%char =>
      match IndexedLabels this with
      | Some labels =>
          if decide (0 ≤ seriesIndex ∧ seriesIndex < Z.of_nat (length labels))%Z
          then labels !! Z.to_nat seriesIndex
          else Some EmptyString
      | None => Some EmptyString
      end
  | "l"%char => Some (GetLabel this)
  | "c"%char => Some (decimal seriesIndex)
  | "C"%char =>
      table ← Input this;
      match GetColumnByName table "ColName" with
      | Some colName => GetVariantValue_ToString colName seriesIndex
      | None => Some "?"
      end
  | _ => Some (String "%" (String c EmptyString))
  end.

(** The scan of the format, from the character [i] on. *)
Fixpoint tooltip_scan {text : PlotText} (this : vtkPlotBag) (plotPos : D * D)
    (seriesIndex : Z) (density : option vtkAbstractArray)
    (format : string) (escapeNext : bool) (tooltipLabel : string) : option string :=
  match format with
  | EmptyString => Some tooltipLabel
  | String c rest =>
      if escapeNext then
        piece ← tooltip_code this plotPos seriesIndex density c;
        tooltip_scan this plotPos seriesIndex density rest false (tooltipLabel +:+ piece)
      else if Ascii.eqb c "%" then
        tooltip_scan this plotPos seriesIndex density rest true tooltipLabel
      else
        tooltip_scan this plotPos seriesIndex density rest false
          (tooltipLabel +:+ String c EmptyString)
  end.

(** [vtkPlotBag::GetTooltipLabel]. *)
Definition GetTooltipLabel {text : PlotText} (this : vtkPlotBag) (plotPos : D * D)
    (seriesIndex : Z) : option string :=
  let format :=
    if decide (TooltipLabelFormat this = EmptyString) then TooltipDefaultLabelFormat this
    else TooltipLabelFormat this in
  let density :=
    match GetInputAbstractArrayToProcess this 2 (Input this) with
    | Some a => if is_null (SafeDownCast (Some a)) then None else Some a
    | None => None
    end in
  tooltip_scan this plotPos seriesIndex density format false EmptyString.

(** The value of [escapeNext] when the scan of [format] ends: whether the
    format stops on a percent sign that is still waiting for its code. *)
Fixpoint final_escape (format : string) (escapeNext : bool) : bool :=
  match format with
  | EmptyString => escapeNext
  | String c rest => final_escape rest (if escapeNext then false else Ascii.eqb c "%")
  end.

(** ** Input configuration *)

(** [SetInputData(table)], the table alone. *)
Definition SetInputData_table (this : vtkPlotBag) (table : option vtkTable) : vtkPlotBag :=
  let this := set_Input table this in
  set_MTime (S (MTime this)) this.

(** [SetInputData(table, xColumn, yColumn, densityColumn)], by names. *)
Definition SetInputData_x_y_density (this : vtkPlotBag) (table : option vtkTable)
    (xColumn yColumn densityColumn : string) : vtkPlotBag :=
  let this := set_Input table this in
  let this := set_InputArrayX (Some xColumn) this in
  let this := set_InputArrayY (Some yColumn) this in
  let this := set_InputArrayDensity (Some densityColumn) this in
  if is_null (AutoLabels this) then this else set_AutoLabels None this.

(** [SetInputData(table, yColumn, densityColumn)]: the new plot and the
    error messages. The two columns are looked up by name and dereferenced
    as they come. *)
Definition SetInputData_y_density (this : vtkPlotBag) (table : option vtkTable)
    (yColumn densityColumn : string) : option (vtkPlotBag * list string) :=
  t ← table;
  density ← GetColumnByName t densityColumn;
  y ← GetColumnByName t yColumn;
  if decide (GetNumberOfTuples density ≠ GetNumberOfTuples y) then
    Some (this, ["Input table not correctly initialized!"])
  else
    let this := SetInputData_x_y_density this table yColumn yColumn densityColumn in
    Some (set_UseIndexForXSeries true this, []).

(** [SetInputData(table, xColumn, yColumn, densityColumn)], by indices: the
    column names are read off the table and turned into strings. *)
Definition SetInputData_indices (this : vtkPlotBag) (table : option vtkTable)
    (xColumn yColumn densityColumn : Z) : option vtkPlotBag :=
  t ← table;
  x ← GetColumnName t xColumn;
  y ← GetColumnName t yColumn;
  density ← GetColumnName t densityColumn;
  Some (SetInputData_x_y_density this table x y density).

(** The constructor, on the object as the superclass constructors left it. *)
Definition vtkPlotBag_new (base : vtkPlotBag) : vtkPlotBag :=
  {| Input := Input base; InputArrayX := InputArrayX base;
     InputArrayY := InputArrayY base; InputArrayDensity := InputArrayDensity base;
     Points := Points base;
     MedianPoints := [];
     Q3Points := [];
     Visible := Visible base;
     BagVisible := true;
     UseIndexForXSeries := UseIndexForXSeries base;
     Brush := Brush_SetOpacity (to_uchar 255)
                (Brush_SetColor (to_uchar 255) (to_uchar 0) (to_uchar 0) (Brush base));
     Pen := {| PenColor := (0, 0, 0)%Z; Width := d_lit 5 |};
     LinePen := {| PenColor := (0, 0, 0)%Z; Width := d_lit 1 |};
     Labels := Labels base; AutoLabels := AutoLabels base;
     IndexedLabels := IndexedLabels base;
     TooltipLabelFormat := TooltipLabelFormat base;
     TooltipDefaultLabelFormat := "%C, %l (%x, %y): %z";
     XAxis := XAxis base; YAxis := YAxis base;
     BuildTime := BuildTime base; MTime := MTime base |}.

(** ** The properties in the words of the specification *)

(** The cumulative density mass after each entry of a ranking, from [sum]. *)
Fixpoint running_mass (sum : D) (ids : list DensityVal) : list D :=
  match ids with
  | [] => []
  | id :: rest =>
      let sum := d_add sum (Density id) in
      sum :: running_mass sum rest
  end.

(** The longest prefix whose every element passes [p]. *)
Fixpoint take_while {A} (p : A → bool) (l : list A) : list A :=
  match l with
  | [] => []
  | a :: l => if p a then a :: take_while p l else []
  end.

(** The entries of a ranking collected while the cumulative mass is below
    [threshold]: nothing is collected once the threshold is crossed. *)
Definition while_mass_below (threshold sum : D) (ids : list DensityVal)
    : list DensityVal :=
  fst <$> take_while (λ e, d_ltb (snd e) threshold) (zip ids (running_mass sum ids)).


(** The coordinates of the rows named by a list of entries, as the hull
    builders receive them. *)
Definition points_of (points : vtkPoints2D) (ids : list DensityVal)
    : option (list Point3D) :=
  mapM (λ id, x ← GetPoint points (Id id); Some (fst x, snd x, d_zero)) ids.

(** The total density of a column: its entries added up one after the
    other, in row order, starting from zero. *)
Fixpoint total_from (sum : D) (density : list D) : D :=
  match density with
  | [] => sum
  | d :: rest => total_from (d_add sum d) rest
  end.

Definition total_density (density : list D) : D := total_from (d_lit 0) density.

(** Each row's density paired with its row index. *)
Definition density_pairs (density : list D) : list DensityVal :=
  imap (λ i d, mkDensityVal d i) density.

(** The points of the rows named by a list of entries, x and y from the
    point data and z = 0; none when an entry names a row without a point. *)
Definition rows_of (points : vtkPoints2D) (ids : list DensityVal)
    : option (list Point3D) :=
  mapM (λ id, (λ p : Point2D, (fst p, snd p, d_lit 0)) <$> (points : list Point2D) !! Id id)
    ids.


(** The contents of the two hull builders when [UpdateCache] reaches the
    hull computation (line 166), if it does. *)
Definition CollectedBags {sort : StdSort} {super : vtkPlotPoints} (this : vtkPlotBag)
    : option (list Point3D * list Point3D) :=
  let (ok, this) := Superclass_UpdateCache this in
  if negb ok then None else
  points ← Points this;
  table ← Input this;
  density ← SafeDownCast (GetColumn table 2);
  CollectBags points density.

(** A hull closed into a loop: its first point repeated at the end. *)
Definition close_loop {raw : RawMemory} (hull : list Point2D) : list Point2D :=
  hull ++ [default raw_point (head hull)].

(** A collected point as a vertex of the plane: its x and its y. *)
Definition planar (p : Point3D) : Point2D := let '(x, y, _) := p in (x, y).

(** The rule by which a bag is stored, in the words of the specification. *)
Definition stored_as {hull : vtkPointsProjectedHull} {raw : RawMemory}
    (collected : list Point3D) (polygon : vtkPoints2D) : Prop :=
  (length collected = 0 → polygon = []) ∧
  (length collected = 1 ∨ length collected = 2 → polygon = planar <$> collected) ∧
  (2 < length collected →
   polygon = close_loop (CCWHullZ collected) ∧ head polygon = last polygon).

(** The shape drawn for a bag, in the words of the specification: a polygon
    for three points or more, a line for exactly two, nothing otherwise. *)
Definition bag_shape (bag : vtkPoints2D) : list PaintCall :=
  match bag with
  | _ :: _ :: _ :: _ => [DrawPolygon bag]
  | [_; _] => [DrawLine bag]
  | _ => []
  end.

(** The plot that [Paint] and [PaintLegend] leave behind. *)
Definition painted (result : bool * vtkPlotBag * vtkContext2D) : vtkPlotBag :=
  snd (fst result).

(** Modelled from the spec: a hull has no more points than were fed to its
    builder ("polygon hull point count never exceeds the number of points
    fed to the hull builder"). *)
Definition HullContract (hull : vtkPointsProjectedHull) : Prop :=
  ∀ pts, length (CCWHullZ pts) ≤ length pts.

(** Two plots with the same cached data: the scatter points, the two
    polygons and the build time. *)
Definition same_cache (this this' : vtkPlotBag) : Prop :=
  Points this' = Points this ∧ MedianPoints this' = MedianPoints this ∧
  Q3Points this' = Q3Points this ∧ BuildTime this' = BuildTime this.

End PlotBag.

Arguments vtkAbstractArray D : clear implicits.
Arguments vtkTable D : clear implicits.
Arguments Point2D D : clear implicits.
Arguments Point3D D : clear implicits.
Arguments vtkPoints2D D : clear implicits.
Arguments vtkPen D : clear implicits.
Arguments PaintCall D : clear implicits.
Arguments vtkContext2D D : clear implicits.
Arguments vtkRectf D : clear implicits.
Arguments vtkPlotBag D Axis : clear implicits.
Arguments DensityVal D : clear implicits.
Arguments StdSort D : clear implicits.
Arguments vtkPointsProjectedHull D : clear implicits.
Arguments RawMemory D : clear implicits.
Arguments vtkPlotPoints D Axis : clear implicits.
Arguments PlotText D Axis : clear implicits.

(** * Instances of the interfaces

    Executable collaborators, on which the model can be run: rational
    arithmetic in the place of [double], insertion sort for [std::sort], a Graham scan
    for the hull builder, and a plain scatter plot for the superclass. *)

(** ** Rational arithmetic

    The rationals serve to run the model on the sample data. Every property
    of this file is stated for an arbitrary arithmetic; where a proof needs
    order laws they are hypotheses ([DoubleOrder]), which the rationals meet
    like the IEEE numbers without NaN. *)

#[export] Instance Q_Double : Double Q := {|
  d_lit := inject_Z;
  d_half := (1 # 2)%Q;
  d_q99 := (99 # 100)%Q;
  d_add := Qplus;
  d_mul := Qmult;
  d_div := Qdiv;
  d_ltb a b := negb (Qle_bool b a)
|}.

(** ** Insertion sort *)

Fixpoint insert_by {A} (lt : A → A → bool) (x : A) (l : list A) : list A :=
  match l with
  | [] => [x]
  | y :: l' => if lt x y then x :: y :: l' else y :: insert_by lt x l'
  end.

Definition insertion_sort {A} (lt : A → A → bool) (l : list A) : list A :=
  foldr (insert_by lt) [] l.

Definition insertion_StdSort `{Double D} : StdSort D := insertion_sort DensityVal_lt.

(** ** A Graham scan over rational points *)

Definition cross (o a b : Point2D Q) : Q :=
  ((fst a - fst o) * (snd b - snd o) - (snd a - snd o) * (fst b - fst o))%Q.

Definition dist2 (o a : Point2D Q) : Q :=
  ((fst a - fst o) * (fst a - fst o) + (snd a - snd o) * (snd a - snd o))%Q.

Definition Qlt_bool (a b : Q) : bool := negb (Qle_bool b a).

(** [a] is lower than [b], or as low and further left. *)
Definition lower (a b : Point2D Q) : bool :=
  Qlt_bool (snd a) (snd b) || (Qeq_bool (snd a) (snd b) && Qlt_bool (fst a) (fst b)).

(** The lowest point and the others. *)
Fixpoint extract_lowest (pts : list (Point2D Q)) : option (Point2D Q * list (Point2D Q)) :=
  match pts with
  | [] => None
  | p :: pts =>
      match extract_lowest pts with
      | None => Some (p, [])
      | Some (m, others) => if lower p m then Some (p, m :: others) else Some (m, p :: others)
      end
  end.

(** [a] comes before [b] when turning counter-clockwise around [o]. *)
Definition angle_before (o a b : Point2D Q) : bool :=
  Qlt_bool 0 (cross o a b) || (Qeq_bool (cross o a b) 0 && Qlt_bool (dist2 o a) (dist2 o b)).

(** Drop the top of the stack while it does not turn left towards [p]. *)
Fixpoint unwind (stack : list (Point2D Q)) (p : Point2D Q) : list (Point2D Q) :=
  match stack with
  | top :: rest =>
      match rest with
      | below :: _ => if Qle_bool (cross below top p) 0 then unwind rest p else stack
      | [] => stack
      end
  | [] => stack
  end.

Definition graham_scan (pts : list (Point2D Q)) : list (Point2D Q) :=
  match extract_lowest pts with
  | None => []
  | Some (o, others) =>
      rev (foldl (λ stack p, p :: unwind stack p) [o]
             (insertion_sort (angle_before o) others))
  end.

Definition graham_Hull : vtkPointsProjectedHull Q := λ pts, graham_scan (xy <$> pts).

Definition zero_RawMemory : RawMemory Q := (0%Q, 0%Q).

(** ** A plain scatter plot as the superclass *)

(** The points are the rows of the x and y columns (the row numbers for x
    when [UseIndexForXSeries] is set); without a y column no points are
    left. *)
Definition scatter_UpdateCache `{Double D} {Axis} (this : vtkPlotBag D Axis)
    : bool * vtkPlotBag D Axis :=
  match Input this with
  | None => (false, this)
  | Some table =>
      let y := SafeDownCast (GetInputAbstractArrayToProcess this 1 (Some table)) in
      let x :=
        if UseIndexForXSeries this
        then imap (λ i _, d_lit (Z.of_nat i)) <$> y
        else SafeDownCast (GetInputAbstractArrayToProcess this 0 (Some table)) in
      (true, set_Points (x ← x; y ← y; Some (zip x y)) this)
  end.

Definition scatter_Paint `{Double D} {Axis} (this : vtkPlotBag D Axis)
    (painter : vtkContext2D D) : bool * vtkContext2D D :=
  match Points this with
  | Some points => (true, painter ++ [DrawPoints points])
  | None => (false, painter)
  end.

Definition scatter_PlotPoints `{Double D} {Axis} : vtkPlotPoints D Axis :=
  {| Superclass_UpdateCache := scatter_UpdateCache; Superclass_Paint := scatter_Paint |}.

(** ** Number formatting *)

Fixpoint zeros (n : nat) : string :=
  match n with O => EmptyString | S n => String "0" (zeros n) end.

(** Fixed notation with [precision] decimals, as a stream in [ios::fixed]
    mode prints. *)
Definition fixed_notation (precision : nat) (q : Q) : string :=
  let scale := (10 ^ Z.of_nat precision)%Z in
  let n := Qfloor (q * inject_Z scale + (1 # 2))%Q in
  let a := Z.abs n in
  let frac := decimal (a mod scale) in
  (if (n <? 0)%Z then "-" else EmptyString) +:+ decimal (a / scale) +:+
  (if decide (precision = 0) then EmptyString
   else "." +:+ zeros (precision - String.length frac) +:+ frac).

(** The shortest notation of a whole number, six decimals otherwise. *)
Definition plain_notation (q : Q) : string :=
  if Qeq_bool q (inject_Z (Qfloor q)) then decimal (Qfloor q) else fixed_notation 6 q.

(** An axis is its precision; the plot without an axis prints six decimals. *)
Definition fixed_PlotText : PlotText Q nat := {|
  GetNumber position axis := fixed_notation (default 6 axis) position;
  ToString := plain_notation;
  GetLabel this := match Labels this with Some (l :: _) => l | _ => EmptyString end
|}.

(** ** Sample data *)

(** A table of six rows used to run the model: the corners of a square, its
    centre and the middle of its lower side, with their densities. *)
Definition sample_x : list Q := [0; 2; 1; 2; 0; 1]%Q.
Definition sample_y : list Q := [0; 0; 1; 2; 2; 0]%Q.
Definition sample_density : list Q := [1; 5; 3; 0; 2; 9]%Q.
Definition sample_points : vtkPoints2D Q := zip sample_x sample_y.

(** A density column with negative entries. *)
Definition signed_density : list Q := [3; -1; 3; 3; -1; 3]%Q.

Definition sample_table : vtkTable Q :=
  [vtkDataArray "X" sample_x; vtkDataArray "Y" sample_y; vtkDataArray "Density" sample_density].

(** The object the superclass constructors leave, here with two-decimal
    axes, and the plots configured on the sample table. *)
Definition sample_base : vtkPlotBag Q nat :=
  {| Input := None; InputArrayX := None; InputArrayY := None; InputArrayDensity := None;
     Points := None; MedianPoints := []; Q3Points := [];
     Visible := true; BagVisible := false; UseIndexForXSeries := false;
     Brush := mkBrush 0 0 0 255;
     Pen := mkPen (0, 0, 0)%Z 1%Q; LinePen := mkPen (0, 0, 0)%Z 1%Q;
     Labels := None; AutoLabels := None; IndexedLabels := None;
     TooltipLabelFormat := EmptyString; TooltipDefaultLabelFormat := EmptyString;
     XAxis := Some 2; YAxis := Some 2; BuildTime := 0; MTime := 0 |}.

Definition sample_plot : vtkPlotBag Q nat :=
  SetInputData_x_y_density (vtkPlotBag_new sample_base) (Some sample_table) "X" "Y" "Density".

(** The same plot on a table without a third column. *)
Definition two_column_plot : vtkPlotBag Q nat :=
  SetInputData_x_y_density (vtkPlotBag_new sample_base)
    (Some [vtkDataArray "X" sample_x; vtkDataArray "Y" sample_y]) "X" "Y" "Y".

(** A table whose density column is one row short. *)
Definition short_density_table : vtkTable Q :=
  [vtkDataArray "X" sample_x; vtkDataArray "Y" sample_y; vtkDataArray "Density" [1; 5]%Q].

(** The sample plot with the tooltip format of the claim. *)
Definition tooltip_plot : vtkPlotBag Q nat :=
  {| Input := Input sample_plot; InputArrayX := InputArrayX sample_plot;
     InputArrayY := InputArrayY sample_plot;
     InputArrayDensity := InputArrayDensity sample_plot;
     Points := Points sample_plot; MedianPoints := MedianPoints sample_plot;
     Q3Points := Q3Points sample_plot; Visible := Visible sample_plot;
     BagVisible := BagVisible sample_plot;
     UseIndexForXSeries := UseIndexForXSeries sample_plot;
     Brush := Brush sample_plot; Pen := Pen sample_plot; LinePen := LinePen sample_plot;
     Labels := Labels sample_plot; AutoLabels := AutoLabels sample_plot;
     IndexedLabels := IndexedLabels sample_plot;
     TooltipLabelFormat := "%x,%y,%z";
     TooltipDefaultLabelFormat := TooltipDefaultLabelFormat sample_plot;
     XAxis := XAxis sample_plot; YAxis := YAxis sample_plot;
     BuildTime := BuildTime sample_plot; MTime := MTime sample_plot |}.

(** The sample plot after its cache rebuild, with a brush of opacity 40. *)
Definition rebuilt_plot : vtkPlotBag Q nat :=
  default sample_plot
    (snd <$> UpdateCache (sort:=insertion_StdSort) (hull:=graham_Hull)
               (raw:=zero_RawMemory) (super:=scatter_PlotPoints) sample_plot).

Definition faint_plot : vtkPlotBag Q nat := set_Brush (mkBrush 200 100 50 40) rebuilt_plot.

(** The same plot with its bags switched off. *)
Definition hidden_bags_plot : vtkPlotBag Q nat := set_BagVisible false faint_plot.

(** The sample plot with a tooltip format without escape codes. *)
Definition plain_tooltip_plot : vtkPlotBag Q nat := set_TooltipLabelFormat "row" sample_plot.

(** A table without rows, and a table whose density column has a row that
    its x and y columns do not have. *)
Definition empty_table : vtkTable Q :=
  [vtkDataArray "X" []; vtkDataArray "Y" []; vtkDataArray "Density" []].

Definition empty_plot : vtkPlotBag Q nat :=
  SetInputData_x_y_density (vtkPlotBag_new sample_base) (Some empty_table) "X" "Y" "Density".

(** The plot on the table without rows, after its cache rebuild. *)
Definition rebuilt_empty_plot : vtkPlotBag Q nat :=
  default empty_plot
    (snd <$> UpdateCache (sort:=insertion_StdSort) (hull:=graham_Hull)
               (raw:=zero_RawMemory) (super:=scatter_PlotPoints) empty_plot).

Definition ragged_table : vtkTable Q :=
  [vtkDataArray "X" []; vtkDataArray "Y" []; vtkDataArray "Density" [1%Q]].

Definition ragged_plot : vtkPlotBag Q nat :=
  SetInputData_x_y_density (vtkPlotBag_new sample_base) (Some ragged_table) "X" "Y" "Density".

(** A table of one row, and the plot on it. *)
Definition single_row_table : vtkTable Q :=
  [vtkDataArray "X" [1%Q]; vtkDataArray "Y" [2%Q]; vtkDataArray "Density" [3%Q]].

Definition single_row_plot : vtkPlotBag Q nat :=
  SetInputData_x_y_density (vtkPlotBag_new sample_base) (Some single_row_table)
    "X" "Y" "Density".

(** The sample table with a column of row labels before the densities, and
    the plot configured on it by column indices: x is column 0, y column 1
    and the density column 3. *)
Definition labelled_table : vtkTable Q :=
  [vtkDataArray "X" sample_x; vtkDataArray "Y" sample_y;
   vtkStringArray "Label" ["a"; "b"; "c"; "d"; "e"; "f"];
   vtkDataArray "Density" sample_density].

Definition labelled_plot : vtkPlotBag Q nat :=
  default (vtkPlotBag_new sample_base)
    (SetInputData_indices (vtkPlotBag_new sample_base) (Some labelled_table) 0 1 3).

(** The plot on the sample table with a density column name that the table
    does not have. *)
Definition unbound_plot : vtkPlotBag Q nat :=
  SetInputData_x_y_density (vtkPlotBag_new sample_base) (Some sample_table) "X" "Y" "Weight".

(** * Facts about the model *)

Section DoubleFacts.
Context `{DoubleOrder D}.

Lemma d_ltb_irrefl (a : D) : d_ltb a a = false.
Proof.
  destruct (d_ltb a a) eqn:E; [|done].
  by rewrite (d_ltb_asym a a E) in E.
Qed.

Lemma d_le_refl (a : D) : d_le a a.
Proof. apply d_ltb_irrefl. Qed.

Lemma d_lt_le_trans (a b c : D) : d_ltb a b = true → d_le b c → d_ltb a c = true.
Proof.
  intros Hab Hbc. destruct (d_ltb a c) eqn:Hac; [done|].
  assert (d_le b a) as Hba by (eapply d_le_trans; [exact Hbc | exact Hac]).
  unfold d_le in Hba. congruence.
Qed.

Lemma d_sum_nonneg (a d : D) : d_le d_zero a → d_le d_zero d → d_le d_zero (d_add a d).
Proof. intros Ha Hd. eapply d_le_trans; [exact Ha | by apply d_add_nonneg]. Qed.

End DoubleFacts.

Section RankingFacts.
Context {D : Type} `{DoubleOrder D}.
Implicit Types (density : list D) (points : vtkPoints2D D) (ids : list (DensityVal D)).

Lemma emplace_all_lookup density counter i :
  emplace_all density counter !! i = (λ d, mkDensityVal d (counter + i)) <$> density !! i.
Proof.
  revert counter i. induction density as [|d density IH]; intros counter [|i]; simpl; try done.
  - by rewrite Nat.add_0_r.
  - rewrite IH. by replace (S counter + i) with (counter + S i) by lia.
Qed.

Lemma emplace_all_in_range density counter n :
  counter + length density ≤ n → Forall (λ id, Id id < n) (emplace_all density counter).
Proof.
  revert counter. induction density as [|d density IH]; intros counter Hn; simpl in *.
  - constructor.
  - constructor; [simpl; lia | apply IH; lia].
Qed.

Lemma emplace_all_nonneg density counter :
  Forall (d_le d_zero) density →
  Forall (λ id, d_le d_zero (Density id)) (emplace_all density counter).
Proof.
  intros Hd. revert counter. induction Hd; intros counter; simpl; constructor; auto.
Qed.

Lemma foldl_add_nonneg density (start : D) :
  d_le d_zero start → Forall (d_le d_zero) density → d_le d_zero (foldl d_add start density).
Proof.
  intros Hs Hd. revert start Hs. induction Hd as [|d density Hd _ IH]; intros start Hs; simpl.
  - done.
  - apply IH. by apply d_sum_nonneg.
Qed.

Lemma density_sum_nonneg density :
  Forall (d_le d_zero) density → d_le d_zero (density_sum density).
Proof. apply foldl_add_nonneg, d_le_refl. Qed.

End RankingFacts.

Section AccumulateFacts.
Context {D : Type} `{DoubleOrder D}.
Implicit Types (density : list D) (points : vtkPoints2D D) (ids : list (DensityVal D)).
Implicit Types (sum medianDensity q3Density : D) (medianPoints q3Points : list (Point3D D)).

Lemma while_mass_below_cons threshold sum id ids :
  while_mass_below threshold sum (id :: ids) =
    if d_ltb (d_add sum (Density id)) threshold
    then id :: while_mass_below threshold (d_add sum (Density id)) ids
    else [].
Proof. unfold while_mass_below. simpl. by destruct (d_ltb _ _). Qed.

Lemma points_of_cons points id ids x rest :
  GetPoint points (Id id) = Some x → points_of points ids = Some rest →
  points_of points (id :: ids) = Some ((fst x, snd x, d_zero) :: rest).
Proof. intros Hx Hrest. unfold points_of in *. simpl. rewrite Hx. simpl. by rewrite Hrest. Qed.

(** The q3 builder receives exactly the entries met while the mass is below
    the q3 threshold; the loop always ends when every id names a point. *)
Lemma accumulate_q3 points medianDensity q3Density ids :
  Forall (λ id, Id id < length points) ids →
  ∀ sum medianPoints q3Points, ∃ median q3,
    accumulate points medianDensity q3Density ids sum medianPoints q3Points
      = Some (median, q3Points ++ q3) ∧
    points_of points (while_mass_below q3Density sum ids) = Some q3.
Proof.
  induction 1 as [|id ids Hid _ IH]; intros sum medianPoints q3Points; simpl.
  - exists medianPoints, []. by rewrite app_nil_r.
  - destruct (lookup_lt_is_Some_2 points (Id id) Hid) as [x Hx].
    change (GetPoint points (Id id) = Some x) in Hx. rewrite Hx. simpl.
    rewrite while_mass_below_cons.
    destruct (d_ltb (d_add sum (Density id)) q3Density) eqn:Hq3.
    + edestruct IH as (median & q3 & -> & Hq). exists median, ((fst x, snd x, d_zero) :: q3).
      unfold InsertNextPoint. split; [by rewrite <- app_assoc | by apply points_of_cons].
    + eexists _, []. by rewrite app_nil_r.
Qed.

Lemma accumulate_above points medianDensity q3Density ids :
  Forall (λ id, Id id < length points) ids →
  ∀ sum medianPoints q3Points,
    Forall (d_le medianDensity) (running_mass sum ids) →
    ∃ q3,
      accumulate points medianDensity q3Density ids sum medianPoints q3Points
        = Some (medianPoints, q3Points ++ q3) ∧
      points_of points (while_mass_below q3Density sum ids) = Some q3.
Proof.
  induction 1 as [|id ids Hid _ IH]; intros sum medianPoints q3Points Hall; simpl.
  - exists []. by rewrite app_nil_r.
  - simpl in Hall. apply Forall_cons in Hall as [Hle Hall].
    destruct (lookup_lt_is_Some_2 points (Id id) Hid) as [x Hx].
    change (GetPoint points (Id id) = Some x) in Hx. rewrite Hx. simpl.
    unfold d_le in Hle. rewrite Hle. rewrite while_mass_below_cons.
    destruct (d_ltb (d_add sum (Density id)) q3Density) eqn:Hq3.
    + destruct (IH (d_add sum (Density id)) medianPoints
                  (InsertNextPoint q3Points (fst x, snd x, d_zero)) Hall) as (q3 & -> & Hq).
      exists ((fst x, snd x, d_zero) :: q3). unfold InsertNextPoint.
      split; [by rewrite <- app_assoc | by apply points_of_cons].
    + exists []. by rewrite app_nil_r.
Qed.


Lemma running_mass_nonneg threshold sum ids :
  d_le threshold sum → Forall (λ id, d_le d_zero (Density id)) ids →
  Forall (d_le threshold) (running_mass sum ids).
Proof.
  intros Hs Hids. revert sum Hs.
  induction Hids as [|id ids Hid _ IH]; intros sum Hs; simpl; constructor.
  - eapply d_le_trans; [exact Hs | by apply d_add_nonneg].
  - apply IH. eapply d_le_trans; [exact Hs | by apply d_add_nonneg].
Qed.


End AccumulateFacts.

Section RankedFacts.
Context {D : Type} `{DoubleOrder D}.

Lemma ranked_in_range (sort : StdSort D) (points : vtkPoints2D D) (density : list D) :
  StdSortContract sort → length density ≤ length points →
  Forall (λ id, Id id < length points) (sort (emplace_all density 0)).
Proof.
  intros Hsort Hlen. destruct (Hsort (emplace_all density 0)) as [Hperm _].
  rewrite <- Hperm. by apply emplace_all_in_range.
Qed.

Lemma ranked_nonneg (sort : StdSort D) (density : list D) :
  StdSortContract sort → Forall (d_le d_zero) density →
  Forall (λ id, d_le d_zero (Density id)) (sort (emplace_all density 0)).
Proof.
  intros Hsort Hd. destruct (Hsort (emplace_all density 0)) as [Hperm _].
  rewrite <- Hperm. by apply emplace_all_nonneg.
Qed.

Lemma thresholds_ordered (density : list D) :
  Forall (d_le d_zero) density →
  d_le (d_mul d_half (density_sum density)) (d_mul d_q99 (density_sum density)).
Proof. intros Hd. by apply d_scale_mono, density_sum_nonneg. Qed.

End RankedFacts.

Section StoreBagFacts.
Context {D : Type} `{Double D} `{vtkPointsProjectedHull D} `{RawMemory D}.
Implicit Types (hullPoints : list (Point3D D)) (target : vtkPoints2D D).

Lemma StoreBag_one_or_two hullPoints :
  0 < length hullPoints ≤ 2 → StoreBag hullPoints [] = Some (xy <$> hullPoints).
Proof.
  destruct hullPoints as [|a [|b [|c rest]]]; simpl; intros ?; try lia; done.
Qed.

Lemma StoreBag_hull hullPoints :
  2 < length hullPoints → StoreBag hullPoints [] = Some (close_loop (CCWHullZ hullPoints)).
Proof.
  intros Hn. unfold StoreBag. rewrite decide_True by done.
  unfold GetSizeCCWHullZ, GetCCWHullZ, SetNumberOfPoints, close_loop.
  set (hull := CCWHullZ hullPoints).
  rewrite take_nil, app_nil_l, firstn_all. simpl length at 1.
  rewrite Nat.sub_0_r, drop_replicate.
  replace (length hull + 1 - length hull) with 1 by lia. simpl replicate.
  assert (GetPoint (hull ++ [raw_point]) 0 = Some (default raw_point (head hull))) as ->
    by (by destruct hull).
  change (SetPoint (hull ++ [raw_point]) (length hull) (default raw_point (head hull))
          = Some (hull ++ [default raw_point (head hull)])).
  unfold SetPoint. rewrite decide_True by (rewrite length_app; simpl; lia).
  rewrite insert_app_r_alt by lia. by rewrite Nat.sub_diag.
Qed.

End StoreBagFacts.

(** * The instances meet their contracts *)

#[export] Instance Q_DoubleOrder : DoubleOrder Q.
Proof.
  split; unfold d_le; simpl.
  - intros a b Hab. apply negb_true_iff in Hab. apply negb_false_iff, Qle_bool_iff.
    destruct (Qlt_le_dec b a) as [Hlt|Hle]; [|done].
    apply Qlt_le_weak, Qle_bool_iff in Hlt. congruence.
  - intros a b c Hab Hbc. apply negb_false_iff, Qle_bool_iff in Hab, Hbc.
    apply negb_false_iff, Qle_bool_iff. by apply Qle_trans with b.
  - intros s d Hd. apply negb_false_iff, Qle_bool_iff in Hd.
    apply negb_false_iff, Qle_bool_iff. unfold d_zero in Hd. simpl in Hd.
    change (inject_Z 0) with 0%Q in Hd. lra.
  - intros s Hs. apply negb_false_iff, Qle_bool_iff in Hs.
    apply negb_false_iff, Qle_bool_iff. unfold d_zero in Hs. simpl in Hs.
    change (inject_Z 0) with 0%Q in Hs. lra.
Qed.

Section InsertionSort.
Context {A : Type} (lt : A → A → bool).

Lemma insert_by_perm x l : insert_by lt x l ≡ₚ x :: l.
Proof.
  induction l as [|y l IH]; simpl; [done|].
  destruct (lt x y); [done|]. rewrite IH. apply perm_swap.
Qed.

Lemma insertion_sort_perm l : l ≡ₚ insertion_sort lt l.
Proof.
  induction l as [|x l IH]; simpl; [done|].
  rewrite insert_by_perm. by constructor.
Qed.

Lemma insertion_sort_length l : length (insertion_sort lt l) = length l.
Proof. symmetry. apply Permutation_length, insertion_sort_perm. Qed.

Hypothesis lt_asym : ∀ a b, lt a b = true → lt b a = false.
Hypothesis ge_trans : ∀ a b c, lt a b = false → lt b c = false → lt a c = false.

Lemma insert_by_sorted x l :
  StronglySorted (λ a b, lt b a = false) l →
  StronglySorted (λ a b, lt b a = false) (insert_by lt x l).
Proof.
  induction 1 as [|y l Hl IH Hy]; simpl.
  - repeat constructor.
  - destruct (lt x y) eqn:Hxy.
    + constructor; [by constructor|]. constructor; [by apply lt_asym|].
      eapply Forall_impl; [exact Hy|]. intros z Hz. simpl in Hz.
      eapply ge_trans; [exact Hz | by apply lt_asym].
    + constructor; [done|]. rewrite insert_by_perm. by constructor.
Qed.

Lemma insertion_sort_sorted l : StronglySorted (λ a b, lt b a = false) (insertion_sort lt l).
Proof. induction l as [|x l IH]; simpl; [constructor | by apply insert_by_sorted]. Qed.

End InsertionSort.

Lemma insertion_StdSort_contract `{DoubleOrder D} : StdSortContract (insertion_StdSort (D:=D)).
Proof.
  intros l. split; [apply insertion_sort_perm|]. apply insertion_sort_sorted.
  - intros a b. unfold DensityVal_lt. apply d_ltb_asym.
  - intros a b c Hab Hbc. unfold DensityVal_lt in *.
    exact (d_le_trans (Density a) (Density b) (Density c) Hab Hbc).
Qed.

Lemma extract_lowest_length pts o others :
  extract_lowest pts = Some (o, others) → length pts = S (length others).
Proof.
  revert o others. induction pts as [|p pts IH]; intros o others; simpl; [done|].
  destruct (extract_lowest pts) as [[m rest]|] eqn:E.
  - specialize (IH _ _ eq_refl). destruct (lower p m); intros [= <- <-]; simpl; lia.
  - destruct pts as [|q pts]; [by intros [= <- <-]|].
    simpl in E. destruct (extract_lowest pts) as [[??]|]; [destruct (lower _ _)|]; done.
Qed.

Lemma unwind_length stack p : length (unwind stack p) ≤ length stack.
Proof.
  induction stack as [|top rest IH]; simpl; [done|].
  destruct rest as [|below rest']; [done|].
  destruct (Qle_bool _ _); [|done]. etransitivity; [exact IH | simpl; lia].
Qed.

Lemma scan_length (pts stack : list (Point2D Q)) :
  length (foldl (λ stack p, p :: unwind stack p) stack pts) ≤ length stack + length pts.
Proof.
  revert stack. induction pts as [|p pts IH]; intros stack; simpl; [lia|].
  etransitivity; [apply IH|]. simpl. pose proof (unwind_length stack p). lia.
Qed.

Lemma graham_scan_length pts : length (graham_scan pts) ≤ length pts.
Proof.
  unfold graham_scan. destruct (extract_lowest pts) as [[o others]|] eqn:E; simpl; [|lia].
  rewrite length_rev, (extract_lowest_length _ _ _ E).
  etransitivity; [apply scan_length|]. rewrite insertion_sort_length. simpl. lia.
Qed.

Lemma graham_Hull_contract : HullContract graham_Hull.
Proof.
  intros pts. unfold CCWHullZ, graham_Hull.
  etransitivity; [apply graham_scan_length|]. by rewrite length_fmap.
Qed.


(** * The claims *)

Section CollectClaims.
Context {D : Type} `{DoubleOrder D}.

(** The code's total, pairs and points are those of the specification. *)
Lemma total_from_foldl (density : list D) (sum : D) :
  foldl d_add sum density = total_from sum density.
Proof. revert sum. induction density as [|d density IH]; intros sum; simpl; [done | apply IH]. Qed.

Lemma density_sum_total (density : list D) : density_sum density = total_density density.
Proof. apply total_from_foldl. Qed.

Lemma emplace_all_imap (density : list D) counter :
  emplace_all density counter = imap (λ i d, mkDensityVal d (counter + i)) density.
Proof.
  revert counter. induction density as [|d density IH]; intros counter; [done|].
  simpl. rewrite Nat.add_0_r, IH. f_equal. apply imap_ext. intros i x _. simpl.
  f_equal. lia.
Qed.

Lemma emplace_all_pairs (density : list D) : emplace_all density 0 = density_pairs density.
Proof. apply emplace_all_imap. Qed.

Lemma points_of_rows (points : vtkPoints2D D) (ids : list (DensityVal D)) :
  points_of points ids = rows_of points ids.
Proof.
  unfold points_of, rows_of, GetPoint. apply mapM_ext. intros id.
  by destruct ((points : list (Point2D D)) !! Id id).
Qed.


(** C3. With non-negative densities, the points fed to the median builder
    are a prefix of the points fed to the q3 builder, so each of them is also
    fed to the q3 builder. *)
Theorem median_bag_is_prefix_of_q3_bag (sort : StdSort D)
    (points : vtkPoints2D D) (density : list D) :
  StdSortContract sort → length density ≤ length points →
  Forall (d_le d_zero) density →
  ∃ median q3,
    CollectBags points density = Some (median, q3) ∧
    median `prefix_of` q3 ∧
    (∀ p, p ∈ median → p ∈ q3).
Proof.
  intros Hsort Hlen Hnonneg.
  assert (∀ medianDensity q3Density ids sum medianPoints,
    d_le medianDensity q3Density →
    Forall (λ id, d_le d_zero (Density id)) ids →
    Forall (λ id, Id id < length points) ids →
    ∃ median rest,
      accumulate points medianDensity q3Density ids sum medianPoints medianPoints
        = Some (medianPoints ++ median, (medianPoints ++ median) ++ rest)) as Hloop.
  { intros m q ids. induction ids as [|id ids IH]; intros sum acc Hmq Hd Hr; simpl.
    - exists [], []. by rewrite !app_nil_r.
    - apply Forall_cons in Hd as [Hd0 Hd]. apply Forall_cons in Hr as [Hr0 Hr].
      destruct (lookup_lt_is_Some_2 points (Id id) Hr0) as [x Hx].
      change (GetPoint points (Id id) = Some x) in Hx. rewrite Hx. simpl.
      destruct (d_ltb (d_add sum (Density id)) m) eqn:Hmed.
      + rewrite (d_lt_le_trans _ _ _ Hmed Hmq).
        destruct (IH (d_add sum (Density id)) (InsertNextPoint acc (fst x, snd x, d_zero))
                    Hmq Hd Hr) as (median & rest & ->).
        unfold InsertNextPoint. exists ((fst x, snd x, d_zero) :: median), rest.
        by rewrite <- !app_assoc.
      + destruct (d_ltb (d_add sum (Density id)) q) eqn:Hq3.
        * destruct (accumulate_above points m q ids Hr (d_add sum (Density id)) acc
                      (InsertNextPoint acc (fst x, snd x, d_zero))
                      (running_mass_nonneg m _ ids Hmed Hd)) as (q3 & -> & _).
          unfold InsertNextPoint. exists [], ((fst x, snd x, d_zero) :: q3).
          by rewrite !app_nil_r, <- app_assoc.
        * exists [], []. by rewrite !app_nil_r. }
  destruct (Hloop (d_mul d_half (density_sum density)) (d_mul d_q99 (density_sum density))
              (sort (emplace_all density 0)) d_zero []
              (thresholds_ordered density Hnonneg)
              (ranked_nonneg sort density Hsort Hnonneg)
              (ranked_in_range sort points density Hsort Hlen)) as (median & rest & Hacc).
  exists median, (median ++ rest). split; [exact Hacc|].
  split; [by exists rest|]. intros p Hp. apply elem_of_app. by left.
Qed.

End CollectClaims.

Section CollectByMassClaim.
Context {D Axis : Type} `{DoubleOrder D}.
Context {sort : StdSort D} {super : vtkPlotPoints D Axis}.
Implicit Types (this : vtkPlotBag D Axis).


End CollectByMassClaim.

Lemma median_bag_is_prefix_of_q3_bag_witness :
  StdSortContract (insertion_StdSort (D:=Q)) ∧
  length sample_density ≤ length sample_points ∧
  Forall (d_le d_zero) sample_density ∧
  ∃ median q3,
    CollectBags (sort:=insertion_StdSort) sample_points sample_density = Some (median, q3) ∧
    median `prefix_of` q3 ∧ (∀ p, p ∈ median → p ∈ q3).
Proof.
  assert (Forall (d_le d_zero) sample_density) as Hnonneg
    by (repeat constructor; vm_compute; reflexivity).
  assert (length sample_density ≤ length sample_points) as Hlen by (simpl; lia).
  split; [apply insertion_StdSort_contract|]. split; [exact Hlen|]. split; [exact Hnonneg|].
  exact (median_bag_is_prefix_of_q3_bag insertion_StdSort sample_points sample_density
           insertion_StdSort_contract Hlen Hnonneg).
Defined.

Section UpdateCacheClaims.
Context {D Axis : Type} `{Double D}.
Context {sort : StdSort D} {hull : vtkPointsProjectedHull D} {raw : RawMemory D}.
Context {super : vtkPlotPoints D Axis}.
Implicit Types (this : vtkPlotBag D Axis).

Lemma StoreBag_stored_as collected polygon :
  StoreBag collected [] = Some polygon → stored_as collected polygon.
Proof.
  intros Hstore. split; [|split].
  - intros Hlen. apply nil_length_inv in Hlen as ->. by injection Hstore as <-.
  - intros Hlen. rewrite StoreBag_one_or_two in Hstore by lia. injection Hstore as <-.
    apply list_fmap_ext. by intros i [[x y] z] _.
  - intros Hlen. rewrite StoreBag_hull in Hstore by done. injection Hstore as <-.
    split; [done|]. unfold close_loop. rewrite last_snoc.
    by destruct (CCWHullZ collected).
Qed.

Lemma StoreBag_length collected polygon :
  HullContract hull → StoreBag collected [] = Some polygon →
  length polygon ≤ length collected + 1.
Proof.
  intros Hhull Hstore.
  destruct (decide (2 < length collected)) as [Hlen|Hlen].
  - rewrite StoreBag_hull in Hstore by done. injection Hstore as <-.
    unfold close_loop. rewrite length_app. simpl. pose proof (Hhull collected). lia.
  - destruct (decide (0 < length collected)) as [Hpos|Hzero].
    + rewrite StoreBag_one_or_two in Hstore by lia. injection Hstore as <-.
      rewrite length_fmap. lia.
    + destruct collected; [|simpl in Hzero; lia]. injection Hstore as <-. simpl. lia.
Qed.

(** What a successful rebuild did. *)
Lemma UpdateCache_true this this' :
  UpdateCache this = Some (true, this') →
  ∃ median q3,
    CollectedBags this = Some (median, q3) ∧
    StoreBag median [] = Some (MedianPoints this') ∧
    StoreBag q3 [] = Some (Q3Points this').
Proof.
  unfold UpdateCache, CollectedBags.
  destruct (Superclass_UpdateCache this) as [[] this1]; simpl; [|intros [=]].
  destruct (Points this1) as [points|]; simpl; [|intros [=]].
  destruct (Input this1) as [table|]; simpl; [|intros [=]].
  destruct (SafeDownCast (GetColumn table 2)) as [density|]; simpl; [|intros [=]].
  destruct (CollectBags points density) as [[median q3]|]; simpl; [|intros [=]].
  unfold Reset.
  destruct (StoreBag median []) as [mp|] eqn:Hmp; simpl; [|intros [=]].
  destruct (StoreBag q3 []) as [qp|] eqn:Hqp; simpl; [|intros [=]].
  intros [= <-]. by exists median, q3.
Qed.

(** C2. After a successful cache rebuild each bag is stored by the size of
    its collected set: none gives the empty polygon, one or two points are
    stored as they are, and more than two give the counter-clockwise hull
    closed into a loop, whose first vertex is its last. *)
Theorem UpdateCache_stores_each_bag this this' :
  UpdateCache this = Some (true, this') →
  ∃ median q3,
    CollectedBags this = Some (median, q3) ∧
    stored_as median (MedianPoints this') ∧
    stored_as q3 (Q3Points this').
Proof.
  intros Hrun. destruct (UpdateCache_true this this' Hrun) as (median & q3 & Hc & Hm & Hq).
  exists median, q3. split; [done|]. split; by apply StoreBag_stored_as.
Qed.

(** C8. After a successful cache rebuild neither polygon has more vertices
    than the points fed to its hull builder, plus the closing vertex. *)
Theorem UpdateCache_polygon_size this this' :
  HullContract hull →
  UpdateCache this = Some (true, this') →
  ∃ median q3,
    CollectedBags this = Some (median, q3) ∧
    length (MedianPoints this') ≤ length median + 1 ∧
    length (Q3Points this') ≤ length q3 + 1.
Proof.
  intros Hhull Hrun.
  destruct (UpdateCache_true this this' Hrun) as (median & q3 & Hc & Hm & Hq).
  exists median, q3. split; [done|]. split; by apply StoreBag_length.
Qed.

End UpdateCacheClaims.

#[local] Existing Instance insertion_StdSort.
#[local] Existing Instance graham_Hull.
#[local] Existing Instance zero_RawMemory.
#[local] Existing Instance scatter_PlotPoints.
#[local] Existing Instance fixed_PlotText.

(** The rebuild of the sample plot succeeds: one point in the median bag,
    and a triangle closed into a loop as the q3 bag. *)
Lemma sample_plot_rebuilds :
  ∃ this',
    UpdateCache sample_plot = Some (true, this') ∧
    MedianPoints this' = [(1, 0)]%Q ∧
    Q3Points this' = [(1, 0); (2, 0); (0, 2); (1, 0)]%Q.
Proof. vm_compute. eexists. split; [reflexivity|]. split; reflexivity. Qed.

Lemma UpdateCache_stores_each_bag_witness :
  ∃ this',
    UpdateCache sample_plot = Some (true, this') ∧
    ∃ median q3,
      CollectedBags sample_plot = Some (median, q3) ∧
      stored_as median (MedianPoints this') ∧
      stored_as q3 (Q3Points this').
Proof.
  destruct sample_plot_rebuilds as (this' & Hrun & _).
  exists this'. split; [exact Hrun|].
  exact (UpdateCache_stores_each_bag sample_plot this' Hrun).
Defined.

Lemma UpdateCache_polygon_size_witness :
  HullContract graham_Hull ∧
  ∃ this',
    UpdateCache sample_plot = Some (true, this') ∧
    ∃ median q3,
      CollectedBags sample_plot = Some (median, q3) ∧
      length (MedianPoints this') ≤ length median + 1 ∧
      length (Q3Points this') ≤ length q3 + 1.
Proof.
  split; [exact graham_Hull_contract|].
  destruct sample_plot_rebuilds as (this' & Hrun & _).
  exists this'. split; [exact Hrun|].
  exact (UpdateCache_polygon_size sample_plot this' graham_Hull_contract Hrun).
Defined.


(** C4. A defect of the code: the cache rebuild tests the table's column at
    index 2, not the density column bound to the plot. On the table with the
    densities in column 3 and the plot configured with that index, there is a
    table, there are points and the bound density column is numeric, yet the
    rebuild answers false, because column 2 holds the row labels. On the
    sample table and a plot bound to a density column that the table does not
    have, the rebuild answers true. *)
Lemma UpdateCache_tests_the_third_column :
  (SetInputData_indices (vtkPlotBag_new sample_base) (Some labelled_table) 0 1 3
     = Some labelled_plot ∧
   Input labelled_plot = Some labelled_table ∧
   GetInputAbstractArrayToProcess labelled_plot 2 (Input labelled_plot)
     = Some (vtkDataArray "Density" sample_density) ∧
   ∃ this', UpdateCache labelled_plot = Some (false, this') ∧
            Input this' = Some labelled_table ∧ Points this' = Some sample_points) ∧
  (Input unbound_plot = Some sample_table ∧
   GetInputAbstractArrayToProcess unbound_plot 2 (Input unbound_plot) = None ∧
   ∃ this', UpdateCache unbound_plot = Some (true, this')).
Proof.
  split.
  - split; [reflexivity|]. split; [reflexivity|]. split; [reflexivity|].
    vm_compute. eexists. split; [reflexivity|]. split; reflexivity.
  - split; [reflexivity|]. split; [reflexivity|].
    vm_compute. eexists. reflexivity.
Qed.

Section ConfigurationClaims.
Context {D Axis : Type} `{Double D}.
Implicit Types (this : vtkPlotBag D Axis) (table : vtkTable D).

(** C5. When the density column and the y column named in
    [SetInputData(table, yColumn, densityColumn)] have different row counts,
    the call reports an error and leaves the plot as it was. *)
Theorem SetInputData_rejects_mismatched_columns this table yColumn densityColumn y density :
  GetColumnByName table yColumn = Some y →
  GetColumnByName table densityColumn = Some density →
  GetNumberOfTuples density ≠ GetNumberOfTuples y →
  SetInputData_y_density this (Some table) yColumn densityColumn
    = Some (this, ["Input table not correctly initialized!"]).
Proof.
  intros Hy Hdensity Hrows. unfold SetInputData_y_density. simpl.
  rewrite Hdensity. simpl. rewrite Hy. simpl. by rewrite decide_True.
Qed.

(** C10. [SetInputData(table, yColumn, densityColumn)] is defined exactly
    when there is a table and both named columns exist in it. *)
Theorem SetInputData_defined_iff_columns_exist this (table : option (vtkTable D))
    yColumn densityColumn :
  is_Some (SetInputData_y_density this table yColumn densityColumn) ↔
  ∃ t, table = Some t ∧
       is_Some (GetColumnByName t yColumn) ∧ is_Some (GetColumnByName t densityColumn).
Proof.
  unfold SetInputData_y_density. destruct table as [t|]; simpl.
  - destruct (GetColumnByName t densityColumn) as [density|] eqn:Hdensity; simpl.
    + destruct (GetColumnByName t yColumn) as [y|] eqn:Hy; simpl.
      * split.
        -- intros _. exists t. rewrite Hy, Hdensity. eauto.
        -- intros _. by destruct (decide _).
      * split; [by intros [? ?]|]. intros (t' & [= <-] & [? Hy'] & _). congruence.
    + split; [by intros [? ?]|]. intros (t' & [= <-] & _ & [? Hd']). congruence.
  - split; [by intros [? ?]|]. by intros (t' & ? & _).
Qed.

(** C7, as amended. The overload without an x column enables index-based X
    when it accepts the columns; the overloads with an explicit x column
    leave the setting as it was. *)
Theorem index_based_x_after_configuration this (table : option (vtkTable D)) :
  (∀ yColumn densityColumn this',
     SetInputData_y_density this table yColumn densityColumn = Some (this', []) →
     UseIndexForXSeries this' = true) ∧
  (∀ xColumn yColumn densityColumn,
     UseIndexForXSeries (SetInputData_x_y_density this table xColumn yColumn densityColumn)
       = UseIndexForXSeries this) ∧
  (∀ xColumn yColumn densityColumn this',
     SetInputData_indices this table xColumn yColumn densityColumn = Some this' →
     UseIndexForXSeries this' = UseIndexForXSeries this).
Proof.
  assert (∀ xColumn yColumn densityColumn,
     UseIndexForXSeries (SetInputData_x_y_density this table xColumn yColumn densityColumn)
       = UseIndexForXSeries this) as Hkeep.
  { intros. unfold SetInputData_x_y_density. simpl. by destruct (AutoLabels this). }
  split; [|split; [exact Hkeep|]].
  - intros yColumn densityColumn this'. unfold SetInputData_y_density.
    destruct table as [t|]; simpl; [|done].
    destruct (GetColumnByName t densityColumn) as [density|]; simpl; [|done].
    destruct (GetColumnByName t yColumn) as [y|]; simpl; [|done].
    destruct (decide _); [done|]. by intros [= <-].
  - intros xColumn yColumn densityColumn this'. unfold SetInputData_indices.
    destruct table as [t|]; simpl; [|done].
    destruct (GetColumnName t xColumn) as [x|]; simpl; [|done].
    destruct (GetColumnName t yColumn) as [y|]; simpl; [|done].
    destruct (GetColumnName t densityColumn) as [density|]; simpl; [|done].
    intros [= <-]. apply Hkeep.
Qed.

End ConfigurationClaims.

Lemma SetInputData_rejects_mismatched_columns_witness :
  GetColumnByName short_density_table "Y" = Some (vtkDataArray "Y" sample_y) ∧
  GetColumnByName short_density_table "Density" = Some (vtkDataArray "Density" [1; 5]%Q) ∧
  GetNumberOfTuples (vtkDataArray "Density" [1; 5]%Q)
    ≠ GetNumberOfTuples (vtkDataArray "Y" sample_y) ∧
  SetInputData_y_density sample_plot (Some short_density_table) "Y" "Density"
    = Some (sample_plot, ["Input table not correctly initialized!"]).
Proof.
  assert (GetNumberOfTuples (vtkDataArray "Density" [1; 5]%Q)
          ≠ GetNumberOfTuples (vtkDataArray "Y" sample_y)) as Hrows by (simpl; lia).
  split; [reflexivity|]. split; [reflexivity|]. split; [exact Hrows|].
  exact (SetInputData_rejects_mismatched_columns sample_plot short_density_table
           "Y" "Density" _ _ eq_refl eq_refl Hrows).
Defined.

(** C7, the counterexample: the plot configured without an x column has
    index-based X enabled, and configuring it again with an explicit x column
    does not disable it. *)
Lemma explicit_x_column_keeps_index_based_x :
  ∃ this',
    SetInputData_y_density (vtkPlotBag_new sample_base) (Some sample_table) "Y" "Density"
      = Some (this', []) ∧
    UseIndexForXSeries this' = true ∧
    UseIndexForXSeries (SetInputData_x_y_density this' (Some sample_table) "X" "Y" "Density")
      = true.
Proof. eexists. split; [reflexivity|]. split; reflexivity. Qed.

Section TooltipClaims.
Context {D Axis : Type} `{Double D} {text : PlotText D Axis}.
Implicit Types (this : vtkPlotBag D Axis).

Lemma string_app_assoc (a b c : string) : (a +:+ b) +:+ c = a +:+ (b +:+ c).
Proof.
  induction a as [|ch a IH]; [done|].
  change (String ch ((a +:+ b) +:+ c) = String ch (a +:+ b +:+ c)). by rewrite IH.
Qed.

(** C6, as amended. With the format "%x,%y,%z", a numeric density column
    bound to the plot and a row inside it, the tooltip is the x and the y of
    the position printed by the plot's number formatter, and the density of
    the row printed by its own conversion to a string, separated by commas. *)
Theorem GetTooltipLabel_x_y_z this (plotPos : D * D) (seriesIndex : Z) name tuples z :
  TooltipLabelFormat this = "%x,%y,%z" →
  GetInputAbstractArrayToProcess this 2 (Input this) = Some (vtkDataArray name tuples) →
  (0 ≤ seriesIndex)%Z →
  tuples !! Z.to_nat seriesIndex = Some z →
  GetTooltipLabel this plotPos seriesIndex
    = Some (GetNumber (fst plotPos) (XAxis this) +:+ "," +:+
            GetNumber (snd plotPos) (YAxis this) +:+ "," +:+ ToString z).
Proof.
  intros Hformat Hdensity Hindex Hrow. unfold GetTooltipLabel.
  rewrite Hformat, Hdensity. simpl.
  unfold GetVariantValue_ToString. rewrite decide_True by done. rewrite Hrow. simpl.
  by rewrite !string_app_assoc.
Qed.

End TooltipClaims.

Lemma GetTooltipLabel_x_y_z_witness :
  TooltipLabelFormat tooltip_plot = "%x,%y,%z" ∧
  GetInputAbstractArrayToProcess tooltip_plot 2 (Input tooltip_plot)
    = Some (vtkDataArray "Density" sample_density) ∧
  (0 ≤ 1)%Z ∧
  sample_density !! Z.to_nat 1 = Some 5%Q ∧
  GetTooltipLabel tooltip_plot (2, 0)%Q 1
    = Some (GetNumber 2%Q (XAxis tooltip_plot) +:+ "," +:+
            GetNumber 0%Q (YAxis tooltip_plot) +:+ "," +:+ ToString 5%Q).
Proof.
  assert (0 ≤ 1)%Z as Hindex by lia.
  split; [reflexivity|]. split; [reflexivity|]. split; [exact Hindex|]. split; [reflexivity|].
  exact (GetTooltipLabel_x_y_z tooltip_plot (2, 0)%Q 1 "Density" sample_density 5%Q
           eq_refl eq_refl Hindex eq_refl).
Defined.

(** C6, the counterexample: on row 1 of the sample table (x = 2, y = 0,
    density 5) and two-decimal axes, x and y are printed by the plot's number
    formatter but the density is not. *)
Lemma tooltip_density_not_in_plot_format :
  GetTooltipLabel tooltip_plot (2, 0)%Q 1 = Some "2.00,0.00,5" ∧
  GetNumber 5%Q (XAxis tooltip_plot) = "5.00" ∧
  GetNumber 5%Q (YAxis tooltip_plot) = "5.00" ∧
  ∀ axis, axis = XAxis tooltip_plot ∨ axis = YAxis tooltip_plot →
    GetTooltipLabel tooltip_plot (2, 0)%Q 1
      ≠ Some (GetNumber 2%Q (XAxis tooltip_plot) +:+ "," +:+
              GetNumber 0%Q (YAxis tooltip_plot) +:+ "," +:+ GetNumber 5%Q axis).
Proof.
  split; [by vm_compute|]. split; [by vm_compute|]. split; [by vm_compute|].
  intros axis [->| ->]; by vm_compute.
Qed.

Section PaintClaims.
Context {D Axis : Type} `{Double D} {super : vtkPlotPoints D Axis}.
Implicit Types (this : vtkPlotBag D Axis) (painter : vtkContext2D D).

(** C9. When [Paint] draws the bags, the brush is left with opacity 128,
    whatever its opacity was, and with the colour it had; [PaintLegend]
    leaves the brush as it found it, colour and opacity. *)
Theorem Paint_leaves_brush_half_opaque this painter :
  Visible this = true → is_Some (Points this) → is_Some (Input this) →
  BagVisible this = true →
  (Opacity (Brush (painted (Paint this painter))) = 128%Z ∧
   Red (Brush (painted (Paint this painter))) = Red (Brush this) ∧
   Green (Brush (painted (Paint this painter))) = Green (Brush this) ∧
   Blue (Brush (painted (Paint this painter))) = Blue (Brush this)) ∧
  ∀ rect, Brush (painted (PaintLegend this painter rect)) = Brush this.
Proof.
  intros Hvisible [points Hpoints] [table Htable] Hbag. split.
  - unfold Paint, painted. rewrite Hvisible, Hpoints, Htable, Hbag. simpl.
    destruct (Superclass_Paint _ _) as [answer painter']. simpl. done.
  - intros rect. unfold PaintLegend, painted. simpl. by destruct (Brush this).
Qed.

End PaintClaims.

Lemma Paint_leaves_brush_half_opaque_witness :
  Visible faint_plot = true ∧ is_Some (Points faint_plot) ∧ is_Some (Input faint_plot) ∧
  BagVisible faint_plot = true ∧
  Opacity (Brush faint_plot) = 40%Z ∧
  Opacity (Brush (painted (Paint faint_plot []))) = 128%Z ∧
  Brush (painted (PaintLegend faint_plot [] (mkRectf 0 0 4 2)%Q)) = Brush faint_plot.
Proof.
  assert (is_Some (Points faint_plot)) as Hpoints by (eexists; reflexivity).
  assert (is_Some (Input faint_plot)) as Hinput by (eexists; reflexivity).
  split; [reflexivity|]. split; [exact Hpoints|]. split; [exact Hinput|].
  split; [reflexivity|]. split; [reflexivity|].
  destruct (Paint_leaves_brush_half_opaque faint_plot [] eq_refl Hpoints Hinput eq_refl)
    as [(Hopacity & _) Hlegend].
  split; [exact Hopacity | exact (Hlegend (mkRectf 0 0 4 2)%Q)].
Defined.

(** * Further properties of the code *)

Section FurtherProperties.
Context {D Axis : Type} `{Double D}.
Context {sort : StdSort D} {hull : vtkPointsProjectedHull D} {raw : RawMemory D}.
Context {super : vtkPlotPoints D Axis} {text : PlotText D Axis}.
Implicit Types (this : vtkPlotBag D Axis) (painter : vtkContext2D D).

(** X1. [Paint] draws nothing, changes nothing and answers false when the
    plot is not visible, has no points or has no table. *)
Theorem Paint_nothing_to_draw this painter :
  Visible this = false ∨ Points this = None ∨ Input this = None →
  Paint this painter = (false, this, painter).
Proof.
  intros Hcase. unfold Paint.
  destruct (Visible this); [|done].
  destruct (Points this); [|done].
  destruct (Input this); [|done].
  by destruct Hcase as [?|[?|?]].
Qed.

Lemma draw_bag_shape (bag : vtkPoints2D D) painter :
  draw_bag bag painter = painter ++ bag_shape bag.
Proof.
  unfold draw_bag. destruct bag as [|a [|b [|c rest]]]; simpl length.
  - rewrite !decide_False by lia. by rewrite app_nil_r.
  - rewrite !decide_False by lia. by rewrite app_nil_r.
  - rewrite decide_False by lia. by rewrite decide_True by lia.
  - by rewrite decide_True by lia.
Qed.

(** X2. When the bags are drawn, the painter receives, in this order: the
    hull pen, the darkened opaque brush, the shape of the q3 bag (a polygon
    for three points or more, a line for exactly two, nothing otherwise), the
    original colour at opacity 128, the shape of the median bag by the same
    rule, the point pen, and then what the superclass draws. *)
Theorem Paint_draws_in_order this painter :
  Visible this = true → is_Some (Points this) → is_Some (Input this) →
  BagVisible this = true →
  let dark := mkBrush (to_uchar (Red (Brush this) ÷ 2)) (to_uchar (Green (Brush this) ÷ 2))
                (to_uchar (Blue (Brush this) ÷ 2)) (to_uchar 255) in
  let faint := mkBrush (Red (Brush this)) (Green (Brush this)) (Blue (Brush this))
                 (to_uchar 128) in
  let drawn :=
    painter ++ [ApplyPen (LinePen this); ApplyBrush dark] ++ bag_shape (Q3Points this) ++
    [ApplyBrush faint] ++ bag_shape (MedianPoints this) ++ [ApplyPen (Pen this)] in
  Paint this painter =
    (fst (Superclass_Paint (set_Brush faint this) drawn), set_Brush faint this,
     snd (Superclass_Paint (set_Brush faint this) drawn)).
Proof.
  intros Hvisible [points Hpoints] [table Htable] Hbag. simpl.
  unfold Paint. rewrite Hvisible, Hpoints, Htable, Hbag. simpl.
  rewrite !draw_bag_shape, <- !app_assoc. simpl.
  by destruct (Superclass_Paint _ _) as [answer painter'].
Qed.

(** X3. An escape code outside x, y, z, i, l, c and C is copied into the
    label with its percent sign. *)
Theorem tooltip_unknown_code_is_literal this (plotPos : D * D) seriesIndex density (c : ascii) :
  c ∉ ["x"; "y"; "z"; "i"; "l"; "c"; "C"]%char →
  tooltip_code this plotPos seriesIndex density c = Some (String "%" (String c EmptyString)).
Proof.
  intros Hc. unfold tooltip_code.
  destruct c as [[] [] [] [] [] [] [] []]; try reflexivity;
    exfalso; apply Hc; repeat constructor.
Qed.

(** X4. When the superclass rebuild succeeds and [UpdateCache] still
    answers false, both cached polygons have been emptied. *)
Theorem UpdateCache_failure_resets_bags this this' :
  fst (Superclass_UpdateCache this) = true →
  UpdateCache this = Some (false, this') →
  MedianPoints this' = [] ∧ Q3Points this' = [].
Proof.
  unfold UpdateCache.
  destruct (Superclass_UpdateCache this) as [ok this1]. simpl. intros ->. simpl.
  destruct (Points this1) as [points|]; [|by intros [= <-]].
  destruct (Input this1) as [table|]; simpl; [|done].
  destruct (SafeDownCast (GetColumn table 2)) as [density|]; [|by intros [= <-]].
  intros Hrun. by simplify_option_eq.
Qed.

(** X5. [GetLabels] prefers the explicit labels, then the cached automatic
    labels; with neither and no table it answers none and changes nothing. *)
Theorem GetLabels_precedence this :
  (∀ labels, Labels this = Some labels → GetLabels this = (Some labels, this)) ∧
  (∀ labels, Labels this = None → AutoLabels this = Some labels →
     GetLabels this = (Some labels, this)) ∧
  (Labels this = None → AutoLabels this = None → Input this = None →
     GetLabels this = (None, this)).
Proof.
  unfold GetLabels. split; [|split].
  - by intros labels ->.
  - by intros labels -> ->.
  - by intros -> -> ->.
Qed.

(** X6. The densities of the cache rebuild come from the third column of
    the table: the column name bound as density by the configuration plays no
    part, as long as the superclass rebuild does not look at it either. *)
Theorem CollectedBags_ignores_density_binding this (name : option string) :
  Superclass_UpdateCache (set_InputArrayDensity name this)
    = (fst (Superclass_UpdateCache this),
       set_InputArrayDensity name (snd (Superclass_UpdateCache this))) →
  CollectedBags (set_InputArrayDensity name this) = CollectedBags this.
Proof.
  intros Hsuper. unfold CollectedBags. rewrite Hsuper.
  by destruct (Superclass_UpdateCache this) as [ok this1].
Qed.

(** X7. Whatever the densities and the arithmetic, when the point data
    covers the rows the loop ends and the q3 builder has received the points
    of the rows met, in the ranking of the (density, row index) pairs, while
    the cumulative mass was below 99% of the total density. *)
Theorem q3_bag_by_mass (points : vtkPoints2D D) (density : list D) :
  StdSortContract sort → length density ≤ length points →
  ∃ median q3,
    CollectBags points density = Some (median, q3) ∧
    rows_of points
      (while_mass_below (d_mul d_q99 (total_density density)) (d_lit 0)
         (sort (density_pairs density))) = Some q3.
Proof.
  intros Hsort Hlen.
  destruct (accumulate_q3 points (d_mul d_half (density_sum density))
              (d_mul d_q99 (density_sum density)) (sort (emplace_all density 0))
              (ranked_in_range sort points density Hsort Hlen) d_zero [] [])
    as (median & q3 & Hacc & Hq3).
  exists median, q3. split; [exact Hacc|].
  by rewrite <- points_of_rows, <- density_sum_total, <- emplace_all_pairs.
Qed.

End FurtherProperties.

Lemma Paint_nothing_to_draw_witness :
  (Visible sample_plot = false ∨ Points sample_plot = None ∨ Input sample_plot = None) ∧
  Paint sample_plot [] = (false, sample_plot, []).
Proof.
  assert (Visible sample_plot = false ∨ Points sample_plot = None ∨ Input sample_plot = None)
    as Hcase by (right; left; reflexivity).
  split; [exact Hcase|]. exact (Paint_nothing_to_draw sample_plot [] Hcase).
Defined.

Lemma Paint_draws_in_order_witness :
  Visible faint_plot = true ∧ is_Some (Points faint_plot) ∧ is_Some (Input faint_plot) ∧
  BagVisible faint_plot = true ∧
  Paint faint_plot [] =
    (true, set_Brush (mkBrush 200 100 50 128) faint_plot,
     [ApplyPen (LinePen faint_plot); ApplyBrush (mkBrush 100 50 25 255);
      DrawPolygon [(1, 0); (2, 0); (0, 2); (1, 0)]%Q;
      ApplyBrush (mkBrush 200 100 50 128); ApplyPen (Pen faint_plot);
      DrawPoints sample_points]).
Proof.
  assert (is_Some (Points faint_plot)) as Hpoints by (eexists; reflexivity).
  assert (is_Some (Input faint_plot)) as Hinput by (eexists; reflexivity).
  split; [reflexivity|]. split; [exact Hpoints|]. split; [exact Hinput|].
  split; [reflexivity|].
  exact (Paint_draws_in_order faint_plot [] eq_refl Hpoints Hinput eq_refl).
Defined.

Lemma tooltip_unknown_code_is_literal_witness :
  ("q"%char ∉ ["x"; "y"; "z"; "i"; "l"; "c"; "C"]%char) ∧
  tooltip_code tooltip_plot (2, 0)%Q 1 None "q" = Some "%q".
Proof.
  assert ("q"%char ∉ ["x"; "y"; "z"; "i"; "l"; "c"; "C"]%char) as Hq
    by (rewrite !not_elem_of_cons; repeat split; [discriminate..|apply not_elem_of_nil]).
  split; [exact Hq|].
  exact (tooltip_unknown_code_is_literal tooltip_plot (2, 0)%Q 1 None "q" Hq).
Defined.

Lemma UpdateCache_failure_resets_bags_witness :
  fst (Superclass_UpdateCache two_column_plot) = true ∧
  ∃ this',
    UpdateCache two_column_plot = Some (false, this') ∧
    MedianPoints this' = [] ∧ Q3Points this' = [].
Proof.
  split; [reflexivity|]. eexists. split; [reflexivity|].
  exact (UpdateCache_failure_resets_bags two_column_plot _ eq_refl eq_refl).
Defined.

Lemma CollectedBags_ignores_density_binding_witness :
  Superclass_UpdateCache (set_InputArrayDensity (Some "X") sample_plot)
    = (fst (Superclass_UpdateCache sample_plot),
       set_InputArrayDensity (Some "X") (snd (Superclass_UpdateCache sample_plot))) ∧
  InputArrayDensity sample_plot = Some "Density" ∧
  CollectedBags (set_InputArrayDensity (Some "X") sample_plot) = CollectedBags sample_plot.
Proof.
  split; [reflexivity|]. split; [reflexivity|].
  exact (CollectedBags_ignores_density_binding sample_plot (Some "X") eq_refl).
Defined.

Lemma q3_bag_by_mass_witness :
  StdSortContract (insertion_StdSort (D:=Q)) ∧
  length signed_density ≤ length sample_points ∧
  ∃ median q3,
    CollectBags sample_points signed_density = Some (median, q3) ∧
    rows_of sample_points
      (while_mass_below (d_mul d_q99 (total_density signed_density)) (d_lit 0)
         (insertion_StdSort (density_pairs signed_density))) = Some q3.
Proof.
  assert (length signed_density ≤ length sample_points) as Hlen by (simpl; lia).
  split; [apply insertion_StdSort_contract|]. split; [exact Hlen|].
  exact (q3_bag_by_mass sample_points signed_density insertion_StdSort_contract Hlen).
Defined.

(** * More properties of the code

    Properties read off the functions themselves, beyond the claims: the
    tooltip scan, the label cache, the configuration overloads, the painters
    and the cache rebuild. *)

(** ** Tables *)

Section TableFacts.
Context {D : Type}.
Implicit Types (table : vtkTable D) (column : vtkAbstractArray D).

Lemma GetColumnByName_elem table name column :
  GetColumnByName table name = Some column → column ∈ table ∧ GetName column = name.
Proof.
  unfold GetColumnByName. intros Hfind. apply find_some in Hfind as [Hin Hname].
  split; [by apply list_elem_of_In|]. by apply bool_decide_eq_true in Hname.
Qed.

(** With distinct column names, the lookup by the name of a column finds
    that column. *)
Lemma GetColumnByName_unique table i column :
  NoDup (GetName <$> table) → GetColumn table i = Some column →
  GetColumnByName table (GetName column) = Some column.
Proof.
  unfold GetColumn, GetColumnByName. revert i.
  induction table as [|a table IH]; intros i Hnames Hi; [done|].
  simpl in Hnames. apply NoDup_cons in Hnames as [Ha Hnames].
  destruct i as [|i]; simpl in *.
  - injection Hi as ->. by rewrite bool_decide_eq_true_2.
  - rewrite bool_decide_eq_false_2; [by apply (IH i)|].
    intros Heq. apply Ha. rewrite Heq. apply list_elem_of_fmap_2.
    by apply list_elem_of_lookup_2 with i.
Qed.

End TableFacts.

(** ** The tooltip scan *)

Section TooltipFacts.
Context {D Axis : Type} `{Double D} {text : PlotText D Axis}.
Implicit Types (this : vtkPlotBag D Axis) (plotPos : D * D) (seriesIndex : Z).
Implicit Types (density : option (vtkAbstractArray D)) (format label : string).

Lemma string_app_nil_r (s : string) : s +:+ EmptyString = s.
Proof.
  induction s as [|ch s IH]; [done|].
  change (String ch (s +:+ EmptyString) = String ch s). by rewrite IH.
Qed.

(** The scan of two formats written one after the other is the scan of the
    first, continued on the second with the escape state the first left. *)
Lemma tooltip_scan_app this plotPos seriesIndex density f1 f2 escapeNext label :
  tooltip_scan this plotPos seriesIndex density (f1 +:+ f2) escapeNext label =
    label' ← tooltip_scan this plotPos seriesIndex density f1 escapeNext label;
    tooltip_scan this plotPos seriesIndex density f2 (final_escape f1 escapeNext) label'.
Proof.
  revert escapeNext label. induction f1 as [|c f1 IH]; intros escapeNext label; [done|].
  change (String c f1 +:+ f2) with (String c (f1 +:+ f2)). simpl.
  destruct escapeNext.
  - destruct (tooltip_code this plotPos seriesIndex density c) as [piece|]; simpl; [|done].
    apply IH.
  - destruct (Ascii.eqb c "%"); apply IH.
Qed.

(** The scan only ever appends to the label it was given. *)
Lemma tooltip_scan_label this plotPos seriesIndex density format escapeNext label :
  tooltip_scan this plotPos seriesIndex density format escapeNext label =
    String.append label <$>
      tooltip_scan this plotPos seriesIndex density format escapeNext EmptyString.
Proof.
  revert escapeNext label. induction format as [|c format IH]; intros escapeNext label; simpl.
  - by rewrite string_app_nil_r.
  - destruct escapeNext.
    + destruct (tooltip_code this plotPos seriesIndex density c) as [piece|]; simpl; [|done].
      rewrite (IH false (label +:+ piece)).
      change (EmptyString +:+ piece) with piece. rewrite (IH false piece).
      destruct (tooltip_scan this plotPos seriesIndex density format false EmptyString); simpl;
        [|done].
      by rewrite string_app_assoc.
    + destruct (Ascii.eqb c "%"); [apply IH|].
      rewrite (IH false (label +:+ String c EmptyString)).
      change (EmptyString +:+ String c EmptyString) with (String c EmptyString).
      rewrite (IH false (String c EmptyString)).
      destruct (tooltip_scan this plotPos seriesIndex density format false EmptyString); simpl;
        [|done].
      by rewrite string_app_assoc.
Qed.

Lemma tooltip_scan_plain this plotPos seriesIndex density format label :
  "%"%char ∉ String.list_ascii_of_string format →
  tooltip_scan this plotPos seriesIndex density format false label = Some (label +:+ format).
Proof.
  revert label. induction format as [|c format IH]; intros label Hplain; simpl.
  - by rewrite string_app_nil_r.
  - simpl in Hplain. apply not_elem_of_cons in Hplain as [Hc Hplain].
    destruct (Ascii.eqb c "%") eqn:E; [by apply Ascii.eqb_eq in E|].
    rewrite IH by done. by rewrite string_app_assoc.
Qed.

(** Only the codes z and C read an array: when these two yield a piece,
    every code does. *)
Lemma tooltip_code_defined this plotPos seriesIndex density (c : ascii) :
  is_Some (tooltip_code this plotPos seriesIndex density "z") →
  is_Some (tooltip_code this plotPos seriesIndex density "C") →
  is_Some (tooltip_code this plotPos seriesIndex density c).
Proof.
  intros Hz HC.
  assert (is_Some (tooltip_code this plotPos seriesIndex density "i")) as Hi.
  { simpl. destruct (IndexedLabels this) as [labels|]; [|done].
    destruct (decide _) as [[? Hlt]|]; [|done].
    apply lookup_lt_is_Some_2. lia. }
  destruct c as [[] [] [] [] [] [] [] []]; try done.
Qed.

Lemma tooltip_scan_defined this plotPos seriesIndex density format escapeNext label :
  (∀ c, is_Some (tooltip_code this plotPos seriesIndex density c)) →
  is_Some (tooltip_scan this plotPos seriesIndex density format escapeNext label).
Proof.
  intros Hcode. revert escapeNext label.
  induction format as [|c format IH]; intros escapeNext label; simpl; [done|].
  destruct escapeNext; [|destruct (Ascii.eqb c "%"); apply IH].
  destruct (Hcode c) as [piece ->]. simpl. apply IH.
Qed.

Lemma GetVariantValue_ToString_defined (a : vtkAbstractArray D) seriesIndex :
  (0 ≤ seriesIndex)%Z → Z.to_nat seriesIndex < GetNumberOfTuples a →
  is_Some (GetVariantValue_ToString a seriesIndex).
Proof.
  intros Hpos Hrow. unfold GetVariantValue_ToString. rewrite decide_True by done.
  destruct a as [name tuples|name values]; simpl in *.
  - apply fmap_is_Some. by apply lookup_lt_is_Some_2.
  - by apply lookup_lt_is_Some_2.
Qed.

End TooltipFacts.

(** ** The accumulation loop *)

Section CollectFacts.
Context {D : Type} `{Double D}.
Implicit Types (density : list D) (points : vtkPoints2D D) (ids : list (DensityVal D)).

Lemma emplace_all_length density counter :
  length (emplace_all density counter) = length density.
Proof.
  revert counter. induction density as [|d density IH]; intros counter; simpl; by rewrite ?IH.
Qed.

Lemma ranked_length (sort : StdSort D) density :
  StdSortContract sort → length (sort (emplace_all density 0)) = length density.
Proof.
  intros Hsort. destruct (Hsort (emplace_all density 0)) as [Hperm _].
  by rewrite <- Hperm, emplace_all_length.
Qed.



End CollectFacts.

Section StoredFacts.
Context {D : Type} `{Double D} {hull : vtkPointsProjectedHull D} {raw : RawMemory D}.

Lemma StoreBag_empty_iff (collected : list (Point3D D)) (polygon : vtkPoints2D D) :
  StoreBag collected [] = Some polygon → polygon = [] ↔ collected = [].
Proof.
  intros Hstore. destruct (decide (2 < length collected)) as [Hlen|Hlen].
  - rewrite StoreBag_hull in Hstore by done. injection Hstore as <-.
    unfold close_loop. split.
    + intros Hnil. by apply app_nil in Hnil as [_ ?].
    + intros ->. simpl in Hlen. lia.
  - destruct collected as [|p collected]; [by injection Hstore as <-|].
    rewrite StoreBag_one_or_two in Hstore by (simpl in *; lia). by injection Hstore as <-.
Qed.

End StoredFacts.

Section ConfiguredFacts.
Context {D Axis : Type} `{Double D}.

Lemma configured_columns (this : vtkPlotBag D Axis) (table : option (vtkTable D))
    xColumn yColumn densityColumn :
  let this' := SetInputData_x_y_density this table xColumn yColumn densityColumn in
  Input this' = table ∧ InputArrayX this' = Some xColumn ∧
  InputArrayY this' = Some yColumn ∧ InputArrayDensity this' = Some densityColumn.
Proof. unfold SetInputData_x_y_density. simpl. by destruct (AutoLabels this). Qed.

End ConfiguredFacts.

(** ** The properties *)

Section MoreProperties.
Context {D Axis : Type} `{Double D}.
Context {sort : StdSort D} {hull : vtkPointsProjectedHull D} {raw : RawMemory D}.
Context {super : vtkPlotPoints D Axis} {text : PlotText D Axis}.
Implicit Types (this : vtkPlotBag D Axis) (painter : vtkContext2D D) (table : vtkTable D).
Implicit Types (plotPos : D * D) (seriesIndex : Z).

(** X8. A tooltip format without a percent sign is the tooltip, whatever the
    plot, the position and the row. *)
Theorem tooltip_plain_format_is_label this plotPos seriesIndex :
  TooltipLabelFormat this ≠ EmptyString →
  "%"%char ∉ String.list_ascii_of_string (TooltipLabelFormat this) →
  GetTooltipLabel this plotPos seriesIndex = Some (TooltipLabelFormat this).
Proof.
  intros Hset Hplain. unfold GetTooltipLabel. rewrite decide_False by done.
  by rewrite tooltip_scan_plain.
Qed.

(** X9. The tooltip scan is compositional: when the first of two formats
    does not stop on a pending percent sign, the label of the two written one
    after the other is the label of the first followed by the label of the
    second, and it is undefined as soon as one of them is. *)
Theorem tooltip_of_appended_formats this plotPos seriesIndex density f1 f2 :
  final_escape f1 false = false →
  tooltip_scan this plotPos seriesIndex density (f1 +:+ f2) false EmptyString =
    label1 ← tooltip_scan this plotPos seriesIndex density f1 false EmptyString;
    label2 ← tooltip_scan this plotPos seriesIndex density f2 false EmptyString;
    Some (label1 +:+ label2).
Proof.
  intros Hf1. rewrite tooltip_scan_app, Hf1.
  destruct (tooltip_scan this plotPos seriesIndex density f1 false EmptyString) as [label1|];
    simpl; [|done].
  rewrite tooltip_scan_label.
  by destruct (tooltip_scan this plotPos seriesIndex density f2 false EmptyString).
Qed.

(** X10. A percent sign at the very end of the format, with no code after
    it, adds nothing to the label. *)
Theorem tooltip_trailing_percent_is_dropped this plotPos seriesIndex density format :
  final_escape format false = false →
  tooltip_scan this plotPos seriesIndex density (format +:+ "%") false EmptyString =
    tooltip_scan this plotPos seriesIndex density format false EmptyString.
Proof.
  intros Hformat. rewrite tooltip_scan_app, Hformat.
  by destruct (tooltip_scan this plotPos seriesIndex density format false EmptyString).
Qed.

(** X11. With an input table and a row index that every column of the table
    has, the tooltip is defined for every format: no code reads outside an
    array or through a null pointer. *)
Theorem GetTooltipLabel_defined_on_table_rows this plotPos seriesIndex table :
  Input this = Some table →
  (0 ≤ seriesIndex)%Z →
  (∀ column, column ∈ table → Z.to_nat seriesIndex < GetNumberOfTuples column) →
  is_Some (GetTooltipLabel this plotPos seriesIndex).
Proof.
  intros Htable Hpos Hrows. unfold GetTooltipLabel.
  apply tooltip_scan_defined. intros c. apply tooltip_code_defined.
  - simpl. unfold GetInputAbstractArrayToProcess. rewrite Htable. simpl.
    destruct (InputArrayDensity this) as [name|]; simpl; [|by eexists].
    destruct (GetColumnByName table name) as [a|] eqn:Ha; [|by eexists].
    destruct (is_null _); [by eexists|].
    apply GetColumnByName_elem in Ha as [Ha _].
    apply GetVariantValue_ToString_defined; auto.
  - simpl. rewrite Htable. simpl.
    destruct (GetColumnByName table "ColName") as [a|] eqn:Ha; [|by eexists].
    apply GetColumnByName_elem in Ha as [Ha _].
    apply GetVariantValue_ToString_defined; auto.
Qed.

(** X12. The default format set by the constructor begins with the code C,
    which reads the input table: on a new plot without a table and without a
    format of its own, the tooltip dereferences a null pointer. *)
Theorem default_tooltip_needs_table (base : vtkPlotBag D Axis) plotPos seriesIndex :
  TooltipLabelFormat base = EmptyString → Input base = None →
  GetTooltipLabel (vtkPlotBag_new base) plotPos seriesIndex = None.
Proof.
  intros Hformat Hinput. unfold GetTooltipLabel, GetInputAbstractArrayToProcess. simpl.
  rewrite Hformat, Hinput. rewrite decide_True by done. simpl. by rewrite Hinput.
Qed.

(** X13. With no format of its own, the plot uses the constructor's default
    format: on a table without a column "ColName" and a row of the numeric
    density column, the tooltip is "?, <label> (<x>, <y>): <density>". *)
Theorem default_tooltip_label this plotPos seriesIndex table name tuples z :
  TooltipLabelFormat this = EmptyString →
  TooltipDefaultLabelFormat this = "%C, %l (%x, %y): %z" →
  Input this = Some table →
  GetColumnByName table "ColName" = None →
  GetInputAbstractArrayToProcess this 2 (Input this) = Some (vtkDataArray name tuples) →
  (0 ≤ seriesIndex)%Z →
  tuples !! Z.to_nat seriesIndex = Some z →
  GetTooltipLabel this plotPos seriesIndex
    = Some ("?, " +:+ GetLabel this +:+ " (" +:+ GetNumber (fst plotPos) (XAxis this) +:+
            ", " +:+ GetNumber (snd plotPos) (YAxis this) +:+ "): " +:+ ToString z).
Proof.
  intros Hformat Hdefault Htable Hcol Hdensity Hindex Hrow. unfold GetTooltipLabel.
  rewrite Hformat, Hdefault, Hdensity. rewrite decide_True by done. simpl.
  rewrite Htable. simpl. rewrite Hcol. simpl.
  unfold GetVariantValue_ToString. rewrite decide_True by done. rewrite Hrow. simpl.
  by rewrite !string_app_assoc.
Qed.

(** X14. [GetLabels] caches what it computes: asked again, it gives the same
    labels and changes the plot no further. *)
Theorem GetLabels_is_cached this : GetLabels (snd (GetLabels this)) = GetLabels this.
Proof.
  unfold GetLabels at 2 3.
  destruct (Labels this) as [labels|] eqn:HL; simpl.
  - unfold GetLabels. by rewrite HL.
  - destruct (AutoLabels this) as [labels|] eqn:HA; simpl.
    + unfold GetLabels. by rewrite HL, HA.
    + destruct (is_null (Input this)) eqn:HI; simpl.
      * unfold GetLabels. by rewrite HL, HA, HI.
      * unfold GetLabels. simpl. by rewrite HL.
Qed.

(** X15. After a configuration by column names, a plot without explicit
    labels is labelled with the name of the density column when the table has
    a numeric column of that name, and has no label otherwise; labels cached
    before the configuration are forgotten. *)
Theorem GetLabels_after_configuration this table xColumn yColumn densityColumn :
  Labels this = None →
  fst (GetLabels (SetInputData_x_y_density this (Some table) xColumn yColumn densityColumn))
    = Some match GetColumnByName table densityColumn with
           | Some (vtkDataArray _ _) => [densityColumn]
           | _ => []
           end.
Proof.
  intros HL. unfold SetInputData_x_y_density. simpl.
  assert (∀ column, GetColumnByName table densityColumn = Some column →
                    GetName column = densityColumn) as Hname
    by (intros column Hc; by apply GetColumnByName_elem in Hc as [_ ?]).
  destruct (AutoLabels this) as [labels|] eqn:HA; simpl;
    unfold GetLabels, GetInputAbstractArrayToProcess; simpl; rewrite HL, ?HA; simpl;
    destruct (GetColumnByName table densityColumn) as [[name tuples|name values]|]; simpl;
    try done; by rewrite <- (Hname _ eq_refl).
Qed.

(** X16. The overload that sets the table alone does not forget the cached
    labels: once a plot with a table has been asked for its labels, it keeps
    answering them after any change of table through that overload. *)
Theorem auto_labels_survive_table_change this (table' : option (vtkTable D)) :
  is_Some (Input this) →
  fst (GetLabels (SetInputData_table (snd (GetLabels this)) table')) = fst (GetLabels this).
Proof.
  intros [table Htable]. unfold SetInputData_table, GetLabels. rewrite Htable. simpl.
  destruct (Labels this) as [labels|] eqn:HL; simpl; [by rewrite HL|].
  destruct (AutoLabels this) as [labels|] eqn:HA; simpl; [by rewrite HL, HA|].
  by rewrite HL.
Qed.

(** X17. On a table with distinct column names, the configuration by column
    indices binds the columns at these indices: each input array of the plot
    then resolves to the column at its index. *)
Theorem SetInputData_indices_binds_the_columns this table xColumn yColumn densityColumn this' :
  NoDup (GetName <$> table) →
  SetInputData_indices this (Some table) xColumn yColumn densityColumn = Some this' →
  is_Some (GetColumn table (Z.to_nat densityColumn)) ∧
  GetInputAbstractArrayToProcess this' 0 (Input this') = GetColumn table (Z.to_nat xColumn) ∧
  GetInputAbstractArrayToProcess this' 1 (Input this') = GetColumn table (Z.to_nat yColumn) ∧
  GetInputAbstractArrayToProcess this' 2 (Input this')
    = GetColumn table (Z.to_nat densityColumn).
Proof.
  intros Hnames. unfold SetInputData_indices, GetColumnName. simpl.
  destruct (decide (0 ≤ xColumn)%Z); simpl; [|done].
  destruct ((table : list (vtkAbstractArray D)) !! Z.to_nat xColumn) as [x|] eqn:Hx;
    simpl; [|done].
  destruct (decide (0 ≤ yColumn)%Z); simpl; [|done].
  destruct ((table : list (vtkAbstractArray D)) !! Z.to_nat yColumn) as [y|] eqn:Hy;
    simpl; [|done].
  destruct (decide (0 ≤ densityColumn)%Z); simpl; [|done].
  destruct ((table : list (vtkAbstractArray D)) !! Z.to_nat densityColumn) as [density|]
    eqn:Hdensity; simpl; [|done].
  intros [= <-]. unfold GetColumn. rewrite Hx, Hy, Hdensity.
  split; [by eexists|].
  destruct (configured_columns this (Some table) (GetName x) (GetName y) (GetName density))
    as (-> & HX & HY & HD).
  unfold GetInputAbstractArrayToProcess. rewrite HX, HY, HD.
  split; [|split]; eapply GetColumnByName_unique; eassumption.
Qed.

(** X18. When [SetInputData(table, yColumn, densityColumn)] accepts its
    columns, the plot is bound to a y column and a density column of these
    names with the same number of rows, and the y column also serves as the x
    column. *)
Theorem SetInputData_y_density_accepted this table yColumn densityColumn this' :
  SetInputData_y_density this (Some table) yColumn densityColumn = Some (this', []) →
  ∃ y density,
    GetInputAbstractArrayToProcess this' 0 (Input this') = Some y ∧
    GetInputAbstractArrayToProcess this' 1 (Input this') = Some y ∧
    GetInputAbstractArrayToProcess this' 2 (Input this') = Some density ∧
    GetName y = yColumn ∧ GetName density = densityColumn ∧
    GetNumberOfTuples y = GetNumberOfTuples density.
Proof.
  unfold SetInputData_y_density. simpl.
  destruct (GetColumnByName table densityColumn) as [density|] eqn:Hdensity; simpl; [|done].
  destruct (GetColumnByName table yColumn) as [y|] eqn:Hy; simpl; [|done].
  destruct (decide _) as [|Hrows]; [done|]. intros [= <-].
  exists y, density.
  assert (GetNumberOfTuples y = GetNumberOfTuples density) as Hsame
    by (destruct (decide (GetNumberOfTuples y = GetNumberOfTuples density)); [done|];
        exfalso; apply Hrows; congruence).
  apply GetColumnByName_elem in Hy as Hy'. apply GetColumnByName_elem in Hdensity as Hd'.
  destruct (configured_columns this (Some table) yColumn yColumn densityColumn)
    as (HI & HX & HY & HD).
  unfold GetInputAbstractArrayToProcess.
  change (Input (set_UseIndexForXSeries true ?p)) with (Input p).
  change (InputArrayX (set_UseIndexForXSeries true ?p)) with (InputArrayX p).
  change (InputArrayY (set_UseIndexForXSeries true ?p)) with (InputArrayY p).
  change (InputArrayDensity (set_UseIndexForXSeries true ?p)) with (InputArrayDensity p).
  rewrite HI, HX, HY, HD. simpl. rewrite Hy, Hdensity. by destruct Hy', Hd'.
Qed.

(** X19. No configuration overload rebuilds or clears the cached data: the
    scatter points, the two polygons and the build time of the plot are the
    ones it had before, so the bags of the previous input stay in the plot
    until the next cache rebuild. *)
Theorem configuration_keeps_the_cache this (table : option (vtkTable D)) :
  same_cache this (SetInputData_table this table) ∧
  (∀ xColumn yColumn densityColumn,
     same_cache this (SetInputData_x_y_density this table xColumn yColumn densityColumn)) ∧
  (∀ yColumn densityColumn this' errors,
     SetInputData_y_density this table yColumn densityColumn = Some (this', errors) →
     same_cache this this') ∧
  (∀ xColumn yColumn densityColumn this',
     SetInputData_indices this table xColumn yColumn densityColumn = Some this' →
     same_cache this this').
Proof.
  assert (∀ (t : option (vtkTable D)) xColumn yColumn densityColumn,
            same_cache this (SetInputData_x_y_density this t xColumn yColumn densityColumn))
    as Hnames.
  { intros. unfold same_cache, SetInputData_x_y_density. simpl.
    by destruct (AutoLabels this). }
  split; [done|]. split; [apply Hnames|]. split.
  - intros yColumn densityColumn this' errors Hrun. unfold SetInputData_y_density in Hrun.
    destruct table as [t|]; simpl in Hrun; [|done].
    destruct (GetColumnByName t densityColumn); simpl in Hrun; [|done].
    destruct (GetColumnByName t yColumn); simpl in Hrun; [|done].
    destruct (decide _); injection Hrun as <- <-; [done|].
    apply (Hnames (Some t) yColumn yColumn densityColumn).
  - intros xColumn yColumn densityColumn this' Hrun. unfold SetInputData_indices in Hrun.
    destruct table as [t|]; simpl in Hrun; [|done].
    destruct (GetColumnName t xColumn); simpl in Hrun; [|done].
    destruct (GetColumnName t yColumn); simpl in Hrun; [|done].
    destruct (GetColumnName t densityColumn); simpl in Hrun; [|done].
    injection Hrun as <-. apply Hnames.
Qed.

(** X20. With the bags switched off, [Paint] leaves the plot as it is, brush
    included, and only applies the point pen before the superclass draws. *)
Theorem Paint_hidden_bags this painter :
  Visible this = true → is_Some (Points this) → is_Some (Input this) →
  BagVisible this = false →
  Paint this painter =
    (fst (Superclass_Paint this (painter ++ [ApplyPen (Pen this)])), this,
     snd (Superclass_Paint this (painter ++ [ApplyPen (Pen this)]))).
Proof.
  intros Hvisible [points Hpoints] [table Htable] Hbag.
  unfold Paint. rewrite Hvisible, Hpoints, Htable, Hbag. simpl.
  by destruct (Superclass_Paint _ _).
Qed.

(** X21. [PaintLegend] always answers true, leaves the whole plot as it
    found it, and sends the painter five calls: the hull pen, the darkened
    opaque brush, the full rectangle, the original colour at opacity 128, and
    the right half of the rectangle. *)
Theorem PaintLegend_draws_two_rectangles this painter (rect : vtkRectf D) :
  PaintLegend this painter rect =
    (true, this,
     painter ++
     [ApplyPen (LinePen this);
      ApplyBrush (mkBrush (to_uchar (Red (Brush this) ÷ 2)) (to_uchar (Green (Brush this) ÷ 2))
                    (to_uchar (Blue (Brush this) ÷ 2)) (to_uchar 255));
      DrawRect (rect0 rect) (rect1 rect) (rect2 rect) (rect3 rect);
      ApplyBrush (mkBrush (Red (Brush this)) (Green (Brush this)) (Blue (Brush this))
                    (to_uchar 128));
      DrawRect (d_add (rect0 rect) (d_div (rect2 rect) (d_lit 2))) (rect1 rect)
        (d_div (rect2 rect) (d_lit 2)) (rect3 rect)]).
Proof.
  unfold PaintLegend. destruct this as [? ? ? ? ? ? ? ? ? ? [r g b a] ?]. simpl.
  by rewrite <- !app_assoc.
Qed.

(** X22. A bag of fewer than two points is not drawn: when both polygons
    are that small (empty, as the constructor and a rebuild that collected
    nothing leave them, or a single point), [Paint] sends the painter the two
    pens and the two brushes but no polygon and no line. *)
Theorem Paint_skips_small_bags this painter :
  Visible this = true → is_Some (Points this) → is_Some (Input this) →
  BagVisible this = true →
  length (Q3Points this) < 2 → length (MedianPoints this) < 2 →
  let faint := mkBrush (Red (Brush this)) (Green (Brush this)) (Blue (Brush this))
                 (to_uchar 128) in
  let drawn :=
    painter ++
    [ApplyPen (LinePen this);
     ApplyBrush (mkBrush (to_uchar (Red (Brush this) ÷ 2)) (to_uchar (Green (Brush this) ÷ 2))
                   (to_uchar (Blue (Brush this) ÷ 2)) (to_uchar 255));
     ApplyBrush faint; ApplyPen (Pen this)] in
  Paint this painter =
    (fst (Superclass_Paint (set_Brush faint this) drawn), set_Brush faint this,
     snd (Superclass_Paint (set_Brush faint this) drawn)).
Proof.
  intros Hvisible [points Hpoints] [table Htable] Hbag Hq3 Hmedian. simpl.
  unfold Paint. rewrite Hvisible, Hpoints, Htable, Hbag. simpl.
  unfold draw_bag. rewrite !decide_False by lia.
  rewrite <- !app_assoc. simpl.
  by destruct (Superclass_Paint _ _).
Qed.


(** X26. After a successful cache rebuild a polygon is empty exactly when
    nothing was collected for it. *)
Theorem polygon_empty_iff_nothing_collected this this' :
  UpdateCache this = Some (true, this') →
  ∃ median q3,
    CollectedBags this = Some (median, q3) ∧
    (MedianPoints this' = [] ↔ median = []) ∧
    (Q3Points this' = [] ↔ q3 = []).
Proof.
  intros Hrun. destruct (UpdateCache_true this this' Hrun) as (median & q3 & Hc & Hm & Hq).
  exists median, q3. split; [done|]. split; by apply StoreBag_empty_iff.
Qed.

(** X27. Beyond what the superclass rebuild does, [UpdateCache] changes
    nothing but the two polygons and the build time, and the build time
    advances exactly when it answers true. *)
Theorem UpdateCache_changes_only_the_bags this ok this' :
  UpdateCache this = Some (ok, this') →
  let this1 := snd (Superclass_UpdateCache this) in
  this' = set_BuildTime (if ok then S (BuildTime this1) else BuildTime this1)
            (set_Q3Points (Q3Points this') (set_MedianPoints (MedianPoints this') this1)).
Proof.
  unfold UpdateCache.
  destruct (Superclass_UpdateCache this) as [[] this1]; simpl;
    [|intros [= <- <-]; by destruct this1].
  destruct (Points this1) as [points|]; [|intros [= <- <-]; by destruct this1].
  destruct (Input this1) as [table|]; simpl; [|done].
  destruct (SafeDownCast (GetColumn table 2)) as [density|];
    [|intros [= <- <-]; by destruct this1].
  intros Hrun. simplify_option_eq. by destruct this1.
Qed.

(** X28. On a table without rows the cache rebuild succeeds and leaves both
    polygons empty. *)
Theorem UpdateCache_without_rows this table name :
  StdSortContract sort →
  fst (Superclass_UpdateCache this) = true →
  is_Some (Points (snd (Superclass_UpdateCache this))) →
  Input (snd (Superclass_UpdateCache this)) = Some table →
  GetColumn table 2 = Some (vtkDataArray name []) →
  ∃ this', UpdateCache this = Some (true, this') ∧
           MedianPoints this' = [] ∧ Q3Points this' = [].
Proof.
  intros Hsort Hok [points Hpoints] Htable Hcolumn. unfold UpdateCache.
  destruct (Superclass_UpdateCache this) as [ok this1]. simpl in *. subst ok. simpl.
  rewrite Hpoints, Htable. simpl. rewrite Hcolumn. simpl.
  unfold CollectBags. simpl emplace_all.
  destruct (Hsort []) as [Hperm _]. apply Permutation_nil in Hperm.
  unfold std_sort. rewrite Hperm. simpl. eexists. split; [reflexivity|]. done.
Qed.

(** X29. The loop reads the point of the first ranked row before any test:
    when the superclass left an empty point array although the third column
    has rows, [UpdateCache] reads past the end of the point array. *)
Theorem UpdateCache_reads_past_empty_points this table name tuples :
  StdSortContract sort →
  fst (Superclass_UpdateCache this) = true →
  Points (snd (Superclass_UpdateCache this)) = Some [] →
  Input (snd (Superclass_UpdateCache this)) = Some table →
  GetColumn table 2 = Some (vtkDataArray name tuples) →
  tuples ≠ [] →
  UpdateCache this = None.
Proof.
  intros Hsort Hok Hpoints Htable Hcolumn Hrows. unfold UpdateCache.
  destruct (Superclass_UpdateCache this) as [ok this1]. simpl in *. subst ok. simpl.
  rewrite Hpoints, Htable. simpl. rewrite Hcolumn. simpl.
  unfold CollectBags.
  pose proof (ranked_length sort tuples Hsort) as Hlen. unfold std_sort.
  destruct (sort (emplace_all tuples 0)) as [|id ids]; [|done].
  by destruct tuples.
Qed.

(** X30. On the code alone, the cache rebuild answers false exactly when
    the superclass rebuild answers false, when there is no point data after
    it, or when the table's column at index 2 is missing or not numeric; with
    point data and no table it dereferences the null table. *)
Theorem UpdateCache_false_exactly this :
  ((∃ this', UpdateCache this = Some (false, this')) ↔
   fst (Superclass_UpdateCache this) = false ∨
   Points (snd (Superclass_UpdateCache this)) = None ∨
   ∃ table, Input (snd (Superclass_UpdateCache this)) = Some table ∧
            SafeDownCast (GetColumn table 2) = None) ∧
  (fst (Superclass_UpdateCache this) = true →
   is_Some (Points (snd (Superclass_UpdateCache this))) →
   Input (snd (Superclass_UpdateCache this)) = None →
   UpdateCache this = None).
Proof.
  unfold UpdateCache.
  destruct (Superclass_UpdateCache this) as [ok this1]. simpl.
  destruct ok; simpl; [|split; [split; eauto | done]].
  destruct (Points this1) as [points|]; simpl;
    [|split; [split; eauto | by intros _ [? ?]]].
  destruct (Input this1) as [table|]; simpl.
  - split; [|done].
    destruct (SafeDownCast (GetColumn table 2)) as [density|] eqn:Hdensity; simpl.
    + split.
      * intros [this' Hrun]. exfalso. by simplify_option_eq.
      * intros [?|[?|(table' & [= <-] & ?)]]; congruence.
    + split; [|by eauto]. intros _. right. right. by exists table.
  - split; [|done]. split; [by intros [? ?]|].
    intros [?|[?|(table' & ? & _)]]; congruence.
Qed.

End MoreProperties.

Section ComparatorProperties.
Context {D : Type} `{DoubleOrder D}.

(** X23. Under the order laws of [DoubleOrder], [DensityVal::operator<] is a
    strict weak ordering, as [std::sort] requires of its comparison: it is
    irreflexive and transitive, and so is being unordered by it. *)
Theorem DensityVal_lt_strict_weak_order :
  (∀ a : DensityVal D, DensityVal_lt a a = false) ∧
  (∀ a b c : DensityVal D,
     DensityVal_lt a b = true → DensityVal_lt b c = true → DensityVal_lt a c = true) ∧
  (∀ a b c : DensityVal D,
     DensityVal_lt a b = false ∧ DensityVal_lt b a = false →
     DensityVal_lt b c = false ∧ DensityVal_lt c b = false →
     DensityVal_lt a c = false ∧ DensityVal_lt c a = false).
Proof.
  unfold DensityVal_lt. split; [|split].
  - intros a. apply d_ltb_irrefl.
  - intros a b c Hab Hbc. eapply d_lt_le_trans; [exact Hbc|]. by apply d_ltb_asym.
  - intros a b c [Hab Hba] [Hbc Hcb]. split.
    + exact (d_le_trans (Density a) (Density b) (Density c) Hab Hbc).
    + exact (d_le_trans (Density c) (Density b) (Density a) Hcb Hba).
Qed.

End ComparatorProperties.

Section SingleRow.
Context {D Axis : Type} `{DoubleOrder D}.
Context {sort : StdSort D} {hull : vtkPointsProjectedHull D} {raw : RawMemory D}.
Context {super : vtkPlotPoints D Axis}.
Implicit Types (this : vtkPlotBag D Axis).

(** X25. A table of a single row of non-negative density gives two empty
    bags: the mass after the only row is the whole total, which is below
    neither threshold. Besides the order laws this uses that multiplying a
    non-negative number by 0.99 does not increase it. *)
Theorem single_row_gives_empty_bags this table name d points :
  (∀ s : D, d_le d_zero s → d_le (d_mul d_q99 s) s) →
  StdSortContract sort →
  fst (Superclass_UpdateCache this) = true →
  Points (snd (Superclass_UpdateCache this)) = Some points →
  0 < length points →
  Input (snd (Superclass_UpdateCache this)) = Some table →
  GetColumn table 2 = Some (vtkDataArray name [d]) →
  d_le d_zero d →
  ∃ this', UpdateCache this = Some (true, this') ∧
           MedianPoints this' = [] ∧ Q3Points this' = [].
Proof.
  intros Hscale Hsort Hok Hpoints Hlen Htable Hcolumn Hd. unfold UpdateCache.
  destruct (Superclass_UpdateCache this) as [ok this1]. simpl in *. subst ok. simpl.
  rewrite Hpoints, Htable. simpl. rewrite Hcolumn. simpl.
  unfold CollectBags. simpl emplace_all.
  destruct (Hsort [mkDensityVal d 0]) as [Hperm _].
  apply Permutation_singleton_l in Hperm. unfold std_sort. rewrite <- Hperm.
  destruct (lookup_lt_is_Some_2 points 0 Hlen) as [x Hx].
  simpl accumulate. change (GetPoint points 0 = Some x) in Hx. rewrite Hx. simpl.
  unfold density_sum. simpl foldl.
  assert (d_le d_zero (d_add d_zero d)) as Htotal by (apply d_sum_nonneg; [apply d_le_refl | done]).
  pose proof (Hscale _ Htotal) as Hq3.
  pose proof (d_le_trans _ _ _ (d_scale_mono _ Htotal) Hq3) as Hmedian.
  unfold d_le in Hq3, Hmedian. rewrite Hq3, Hmedian. simpl.
  eexists. split; [reflexivity|]. done.
Qed.

End SingleRow.

Lemma tooltip_plain_format_is_label_witness :
  TooltipLabelFormat plain_tooltip_plot ≠ EmptyString ∧
  ("%"%char ∉ String.list_ascii_of_string (TooltipLabelFormat plain_tooltip_plot)) ∧
  GetTooltipLabel plain_tooltip_plot (2, 0)%Q 1 = Some "row".
Proof.
  assert (TooltipLabelFormat plain_tooltip_plot ≠ EmptyString) as Hset by discriminate.
  assert ("%"%char ∉ String.list_ascii_of_string (TooltipLabelFormat plain_tooltip_plot))
    as Hplain by (apply (bool_decide_unpack _); vm_compute; reflexivity).
  split; [exact Hset|]. split; [exact Hplain|].
  exact (tooltip_plain_format_is_label plain_tooltip_plot (2, 0)%Q 1 Hset Hplain).
Defined.

Lemma tooltip_of_appended_formats_witness :
  final_escape "%x;" false = false ∧
  tooltip_scan tooltip_plot (2, 0)%Q 1 None ("%x;" +:+ "%c") false EmptyString
    = Some ("2.00;" +:+ "1").
Proof.
  split; [reflexivity|].
  exact (tooltip_of_appended_formats tooltip_plot (2, 0)%Q 1 None "%x;" "%c" eq_refl).
Defined.

Lemma tooltip_trailing_percent_is_dropped_witness :
  final_escape "%x" false = false ∧
  tooltip_scan tooltip_plot (2, 0)%Q 1 None ("%x" +:+ "%") false EmptyString = Some "2.00".
Proof.
  split; [reflexivity|].
  exact (tooltip_trailing_percent_is_dropped tooltip_plot (2, 0)%Q 1 None "%x" eq_refl).
Defined.

Lemma GetTooltipLabel_defined_on_table_rows_witness :
  Input tooltip_plot = Some sample_table ∧ (0 ≤ 1)%Z ∧
  (∀ column, column ∈ sample_table → Z.to_nat 1 < GetNumberOfTuples column) ∧
  is_Some (GetTooltipLabel tooltip_plot (2, 0)%Q 1).
Proof.
  assert (0 ≤ 1)%Z as Hindex by lia.
  assert (∀ column, column ∈ sample_table → Z.to_nat 1 < GetNumberOfTuples column) as Hrows.
  { intros column Hin. unfold sample_table in Hin.
    rewrite !elem_of_cons, elem_of_nil in Hin.
    destruct Hin as [->|[->|[->|[]]]]; simpl; lia. }
  split; [reflexivity|]. split; [exact Hindex|]. split; [exact Hrows|].
  exact (GetTooltipLabel_defined_on_table_rows tooltip_plot (2, 0)%Q 1 sample_table
           eq_refl Hindex Hrows).
Defined.

Lemma default_tooltip_needs_table_witness :
  TooltipLabelFormat sample_base = EmptyString ∧ Input sample_base = None ∧
  GetTooltipLabel (vtkPlotBag_new sample_base) (2, 0)%Q 1 = None.
Proof.
  split; [reflexivity|]. split; [reflexivity|].
  exact (default_tooltip_needs_table sample_base (2, 0)%Q 1 eq_refl eq_refl).
Defined.

Lemma default_tooltip_label_witness :
  TooltipLabelFormat sample_plot = EmptyString ∧
  TooltipDefaultLabelFormat sample_plot = "%C, %l (%x, %y): %z" ∧
  Input sample_plot = Some sample_table ∧
  GetColumnByName sample_table "ColName" = None ∧
  GetInputAbstractArrayToProcess sample_plot 2 (Input sample_plot)
    = Some (vtkDataArray "Density" sample_density) ∧
  (0 ≤ 1)%Z ∧
  sample_density !! Z.to_nat 1 = Some 5%Q ∧
  GetTooltipLabel sample_plot (2, 0)%Q 1
    = Some ("?, " +:+ GetLabel sample_plot +:+ " (" +:+ GetNumber 2%Q (XAxis sample_plot) +:+
            ", " +:+ GetNumber 0%Q (YAxis sample_plot) +:+ "): " +:+ ToString 5%Q).
Proof.
  assert (0 ≤ 1)%Z as Hindex by lia.
  split; [reflexivity|]. split; [reflexivity|]. split; [reflexivity|]. split; [reflexivity|].
  split; [reflexivity|]. split; [exact Hindex|]. split; [reflexivity|].
  exact (default_tooltip_label sample_plot (2, 0)%Q 1 sample_table "Density" sample_density
           5%Q eq_refl eq_refl eq_refl eq_refl eq_refl Hindex eq_refl).
Defined.

Lemma GetLabels_after_configuration_witness :
  Labels (vtkPlotBag_new sample_base) = None ∧
  fst (GetLabels sample_plot) = Some ["Density"].
Proof.
  split; [reflexivity|].
  exact (GetLabels_after_configuration (vtkPlotBag_new sample_base) sample_table
           "X" "Y" "Density" eq_refl).
Defined.

Lemma auto_labels_survive_table_change_witness :
  is_Some (Input sample_plot) ∧
  fst (GetLabels (SetInputData_table (snd (GetLabels sample_plot)) (Some empty_table)))
    = fst (GetLabels sample_plot).
Proof.
  assert (is_Some (Input sample_plot)) as Hinput by (eexists; reflexivity).
  split; [exact Hinput|].
  exact (auto_labels_survive_table_change sample_plot (Some empty_table) Hinput).
Defined.

Lemma SetInputData_indices_binds_the_columns_witness :
  NoDup (GetName <$> sample_table) ∧
  SetInputData_indices (vtkPlotBag_new sample_base) (Some sample_table) 0 1 2
    = Some sample_plot ∧
  GetInputAbstractArrayToProcess sample_plot 2 (Input sample_plot)
    = GetColumn sample_table (Z.to_nat 2).
Proof.
  assert (NoDup (GetName <$> sample_table)) as Hnames
    by (apply (bool_decide_unpack _); vm_compute; reflexivity).
  split; [exact Hnames|]. split; [reflexivity|].
  exact (proj2 (proj2 (proj2
           (SetInputData_indices_binds_the_columns (vtkPlotBag_new sample_base) sample_table
              0 1 2 sample_plot Hnames eq_refl)))).
Defined.

Lemma SetInputData_y_density_accepted_witness :
  ∃ this',
    SetInputData_y_density (vtkPlotBag_new sample_base) (Some sample_table) "Y" "Density"
      = Some (this', []) ∧
    ∃ y density,
      GetInputAbstractArrayToProcess this' 0 (Input this') = Some y ∧
      GetInputAbstractArrayToProcess this' 1 (Input this') = Some y ∧
      GetInputAbstractArrayToProcess this' 2 (Input this') = Some density ∧
      GetName y = "Y" ∧ GetName density = "Density" ∧
      GetNumberOfTuples y = GetNumberOfTuples density.
Proof.
  eexists. split; [reflexivity|].
  exact (SetInputData_y_density_accepted (vtkPlotBag_new sample_base) sample_table
           "Y" "Density" _ eq_refl).
Defined.

Lemma Paint_hidden_bags_witness :
  Visible hidden_bags_plot = true ∧ is_Some (Points hidden_bags_plot) ∧
  is_Some (Input hidden_bags_plot) ∧ BagVisible hidden_bags_plot = false ∧
  Paint hidden_bags_plot [] =
    (true, hidden_bags_plot, [ApplyPen (Pen hidden_bags_plot); DrawPoints sample_points]).
Proof.
  assert (is_Some (Points hidden_bags_plot)) as Hpoints by (eexists; reflexivity).
  assert (is_Some (Input hidden_bags_plot)) as Hinput by (eexists; reflexivity).
  split; [reflexivity|]. split; [exact Hpoints|]. split; [exact Hinput|].
  split; [reflexivity|].
  exact (Paint_hidden_bags hidden_bags_plot [] eq_refl Hpoints Hinput eq_refl).
Defined.

Lemma Paint_skips_small_bags_witness :
  Visible rebuilt_empty_plot = true ∧ is_Some (Points rebuilt_empty_plot) ∧
  is_Some (Input rebuilt_empty_plot) ∧ BagVisible rebuilt_empty_plot = true ∧
  length (Q3Points rebuilt_empty_plot) < 2 ∧ length (MedianPoints rebuilt_empty_plot) < 2 ∧
  Paint rebuilt_empty_plot [] =
    (true, set_Brush (mkBrush 255 0 0 128) rebuilt_empty_plot,
     [ApplyPen (mkPen (0, 0, 0)%Z 1%Q); ApplyBrush (mkBrush 127 0 0 255);
      ApplyBrush (mkBrush 255 0 0 128); ApplyPen (mkPen (0, 0, 0)%Z 5%Q); DrawPoints []]).
Proof.
  assert (is_Some (Points rebuilt_empty_plot)) as Hpoints by (eexists; reflexivity).
  assert (is_Some (Input rebuilt_empty_plot)) as Hinput by (eexists; reflexivity).
  assert (length (Q3Points rebuilt_empty_plot) < 2) as Hq3 by (vm_compute; lia).
  assert (length (MedianPoints rebuilt_empty_plot) < 2) as Hmedian by (vm_compute; lia).
  split; [reflexivity|]. split; [exact Hpoints|]. split; [exact Hinput|].
  split; [reflexivity|]. split; [exact Hq3|]. split; [exact Hmedian|].
  exact (Paint_skips_small_bags rebuilt_empty_plot [] eq_refl Hpoints Hinput eq_refl
           Hq3 Hmedian).
Defined.

Lemma DensityVal_lt_strict_weak_order_witness :
  DoubleOrder Q ∧
  (∀ a : DensityVal Q, DensityVal_lt a a = false) ∧
  (∀ a b c : DensityVal Q,
     DensityVal_lt a b = true → DensityVal_lt b c = true → DensityVal_lt a c = true) ∧
  (∀ a b c : DensityVal Q,
     DensityVal_lt a b = false ∧ DensityVal_lt b a = false →
     DensityVal_lt b c = false ∧ DensityVal_lt c b = false →
     DensityVal_lt a c = false ∧ DensityVal_lt c a = false).
Proof.
  split; [exact Q_DoubleOrder|].
  exact (DensityVal_lt_strict_weak_order (D:=Q)).
Defined.


Lemma single_row_gives_empty_bags_witness :
  (∀ s : Q, d_le d_zero s → d_le (d_mul d_q99 s) s) ∧
  StdSortContract (insertion_StdSort (D:=Q)) ∧
  fst (Superclass_UpdateCache single_row_plot) = true ∧
  Points (snd (Superclass_UpdateCache single_row_plot)) = Some [(1, 2)%Q] ∧
  0 < length [(1, 2)%Q] ∧
  Input (snd (Superclass_UpdateCache single_row_plot)) = Some single_row_table ∧
  GetColumn single_row_table 2 = Some (vtkDataArray "Density" [3%Q]) ∧
  d_le d_zero 3%Q ∧
  ∃ this', UpdateCache single_row_plot = Some (true, this') ∧
           MedianPoints this' = [] ∧ Q3Points this' = [].
Proof.
  assert (∀ s : Q, d_le d_zero s → d_le (d_mul d_q99 s) s) as Hscale.
  { intros s Hs. unfold d_le in *. simpl in *.
    apply negb_false_iff, Qle_bool_iff in Hs. apply negb_false_iff, Qle_bool_iff.
    change (inject_Z 0) with 0%Q in Hs. lra. }
  assert (0 < length [(1, 2)%Q]) as Hlen by (simpl; lia).
  assert (d_le d_zero 3%Q) as Hd by (vm_compute; reflexivity).
  split; [exact Hscale|]. split; [apply insertion_StdSort_contract|].
  split; [reflexivity|]. split; [reflexivity|]. split; [exact Hlen|].
  split; [reflexivity|]. split; [reflexivity|]. split; [exact Hd|].
  exact (single_row_gives_empty_bags single_row_plot single_row_table "Density" 3%Q
           [(1, 2)%Q] Hscale insertion_StdSort_contract eq_refl eq_refl Hlen eq_refl
           eq_refl Hd).
Defined.

Lemma polygon_empty_iff_nothing_collected_witness :
  ∃ this',
    UpdateCache sample_plot = Some (true, this') ∧
    ∃ median q3,
      CollectedBags sample_plot = Some (median, q3) ∧
      (MedianPoints this' = [] ↔ median = []) ∧
      (Q3Points this' = [] ↔ q3 = []).
Proof.
  destruct sample_plot_rebuilds as (this' & Hrun & _).
  exists this'. split; [exact Hrun|].
  exact (polygon_empty_iff_nothing_collected sample_plot this' Hrun).
Defined.

Lemma UpdateCache_changes_only_the_bags_witness :
  ∃ this',
    UpdateCache sample_plot = Some (true, this') ∧
    this' = set_BuildTime (S (BuildTime (snd (Superclass_UpdateCache sample_plot))))
              (set_Q3Points (Q3Points this')
                 (set_MedianPoints (MedianPoints this')
                    (snd (Superclass_UpdateCache sample_plot)))).
Proof.
  destruct sample_plot_rebuilds as (this' & Hrun & _).
  exists this'. split; [exact Hrun|].
  exact (UpdateCache_changes_only_the_bags sample_plot true this' Hrun).
Defined.

Lemma UpdateCache_without_rows_witness :
  StdSortContract (insertion_StdSort (D:=Q)) ∧
  fst (Superclass_UpdateCache empty_plot) = true ∧
  is_Some (Points (snd (Superclass_UpdateCache empty_plot))) ∧
  Input (snd (Superclass_UpdateCache empty_plot)) = Some empty_table ∧
  GetColumn empty_table 2 = Some (vtkDataArray "Density" []) ∧
  ∃ this', UpdateCache empty_plot = Some (true, this') ∧
           MedianPoints this' = [] ∧ Q3Points this' = [].
Proof.
  assert (is_Some (Points (snd (Superclass_UpdateCache empty_plot)))) as Hpoints
    by (eexists; reflexivity).
  split; [apply insertion_StdSort_contract|]. split; [reflexivity|].
  split; [exact Hpoints|]. split; [reflexivity|]. split; [reflexivity|].
  exact (UpdateCache_without_rows empty_plot empty_table "Density"
           insertion_StdSort_contract eq_refl Hpoints eq_refl eq_refl).
Defined.

Lemma UpdateCache_reads_past_empty_points_witness :
  StdSortContract (insertion_StdSort (D:=Q)) ∧
  fst (Superclass_UpdateCache ragged_plot) = true ∧
  Points (snd (Superclass_UpdateCache ragged_plot)) = Some [] ∧
  Input (snd (Superclass_UpdateCache ragged_plot)) = Some ragged_table ∧
  GetColumn ragged_table 2 = Some (vtkDataArray "Density" [1%Q]) ∧
  [1%Q] ≠ [] ∧
  UpdateCache ragged_plot = None.
Proof.
  assert ([1%Q] ≠ []) as Hrows by discriminate.
  split; [apply insertion_StdSort_contract|]. split; [reflexivity|].
  split; [reflexivity|]. split; [reflexivity|]. split; [reflexivity|].
  split; [exact Hrows|].
  exact (UpdateCache_reads_past_empty_points ragged_plot ragged_table "Density" [1%Q]
           insertion_StdSort_contract eq_refl eq_refl eq_refl eq_refl Hrows).
Defined.
